(** * read_tile.c: the terrain tile reader [c_get_tile]

    A shallow embedding of [src/core_terrain/read_tile.c] and the
    properties of its decode path: the system-call sequence and its
    status, the big-endian 16-bit sample decoding, the remapping into the
    caller's array, and what happens to the heap buffer and the file
    descriptor on each exit. *)

From Stdlib Require Import ZArith List Lia Bool String.
From Stdlib Require Import Floats.SpecFloat.
From Stdlib Require Init.Byte Strings.Byte.
Import ListNotations.
Local Open Scope Z_scope.

(** ** C scalar types *)

(** [int] is 32 bits wide.  Signed overflow is undefined in C; the model
    takes the two's-complement wrap that the supported targets produce,
    and the theorems that read an arithmetic result assume the operands
    keep it in range. *)
Module CInt.
Definition min_int : Z := - 2 ^ 31.
Definition max_int : Z := 2 ^ 31 - 1.
Definition wrap (z : Z) : Z := (z + 2 ^ 31) mod 2 ^ 32 - 2 ^ 31.
Definition add (x y : Z) : Z := wrap (x + y).
Definition sub (x y : Z) : Z := wrap (x - y).
Definition mul (x y : Z) : Z := wrap (x * y).
Definition shl (x n : Z) : Z := wrap (Z.shiftl x n).
Definition in_range (z : Z) : Prop := min_int <= z <= max_int.
End CInt.

(** [size_t] is 64 bits wide and unsigned; [ssize_t] is its signed
    counterpart. *)
Module CSize.
Definition ssize_max : Z := 2 ^ 63 - 1.
Definition wrap (z : Z) : Z := z mod 2 ^ 64.
Definition mul (x y : Z) : Z := wrap (x * y).
End CSize.

Definition byte : Type := Byte.byte.

(** An [unsigned char] promoted to [int]. *)
Definition u8 (b : byte) : Z := Z.of_N (Byte.to_N b).

(** ** C [float]: IEEE-754 binary32 *)
Module F32.
Definition prec : Z := 24.
Definition emax : Z := 128.
Definition float : Type := spec_float.

(** The conversion [(float) value] of an [int], round to nearest even. *)
Definition of_int (v : Z) : float := binary_normalize prec emax v 0 false.

(** The integer a float denotes, when it denotes one. *)
Definition to_Z (f : float) : option Z :=
  match f with
  | S754_zero _ => Some 0
  | S754_finite s m e =>
      let mag :=
        if 0 <=? e then Some (Z.pos m * 2 ^ e)
        else if Z.pos m mod 2 ^ (- e) =? 0 then Some (Z.pos m / 2 ^ (- e))
        else None in
      match mag with
      | Some a => Some (if s then - a else a)
      | None => None
      end
  | S754_infinity _ | S754_nan => None
  end.

(** [v] is the value of some binary32 number. *)
Definition representable (v : Z) : Prop :=
  exists f : float, valid_binary prec emax f = true /\ to_Z f = Some v.

Definition exactb (v : Z) : bool :=
  valid_binary prec emax (of_int v) &&
  match to_Z (of_int v) with Some w => w =? v | None => false end.
End F32.

(** ** Flat memory

    An array is addressed relative to its base.  With a subscript outside
    the declared extent the C code meets whatever lies there: for [tile]
    the memory after the caller's array, for [tile_1d] the rest of the
    function's own frame, its other locals among it.  The model keeps one
    image per array over all of [Z] and does not track what else lives at
    those addresses: the image at a subscript outside the extent is a
    stand-in for what such an access meets, and nothing is assumed of
    it. *)
Definition mem (A : Type) : Type := Z -> A.

Definition mem_store {A : Type} (m : mem A) (p : Z) (v : A) : mem A :=
  fun q => if q =? p then v else m q.

Fixpoint mem_write_bytes (m : mem byte) (p : Z) (data : list byte) : mem byte :=
  match data with
  | [] => m
  | b :: rest => mem_write_bytes (mem_store m p b) (p + 1) rest
  end.

(** ** The operating system as seen by one call *)

Inductive read_result : Type :=
| ReadError
| ReadBytes (data : list byte).

Record os : Type := mkOs {
  os_open : string -> Z;              (* descriptor, or -1 *)
  os_read : Z -> Z -> read_result;    (* descriptor, count *)
  os_close : Z -> Z                   (* 0, or -1 *)
}.

Inductive event : Type :=
| EvMalloc (size : Z) (block : nat)
| EvOpen (file : string) (ret : Z)
| EvRead (fd count : Z) (ret : Z)
| EvClose (fd : Z) (ret : Z)
| EvFree (block : nat)
| EvPerror (msg : string)
| EvPrintf (line : string)
| EvTileStore (pos : Z) (v : F32.float).

Record machine : Type := mkMachine {
  heap : list nat;            (* heap blocks that are allocated *)
  next_block : nat;
  fds : list Z;               (* descriptors the process holds open *)
  buf : mem byte;             (* the bytes behind [buf] *)
  tile_1d : mem F32.float;    (* the stack array [tile_1d] *)
  tile : mem F32.float;       (* the caller's array [tile] *)
  trace : list event          (* oldest first *)
}.

Definition log (e : event) (m : machine) : machine :=
  mkMachine (heap m) (next_block m) (fds m) (buf m) (tile_1d m) (tile m)
            (trace m ++ [e]).

(** ** Statements: state passing with early [return] *)

Inductive outcome (A : Type) : Type :=
| Continue (a : A)
| Return (status : Z).
Arguments Continue {A} a.
Arguments Return {A} status.

Definition C (A : Type) : Type := machine -> outcome A * machine.

Definition ret {A : Type} (a : A) : C A := fun m => (Continue a, m).

Definition bind {A B : Type} (c : C A) (k : A -> C B) : C B :=
  fun m =>
    match c m with
    | (Continue a, m') => k a m'
    | (Return s, m') => (Return s, m')
    end.

Definition c_return {A : Type} (status : Z) : C A := fun m => (Return status, m).

Declare Scope c_scope.
Delimit Scope c_scope with C.
Notation "x <- c ;; k" := (bind c (fun x => k))
  (at level 61, c at next level, right associativity) : c_scope.
Notation "c ;; k" := (bind c (fun _ => k))
  (at level 61, right associativity) : c_scope.
Local Open Scope c_scope.

(** [if (cond) { body }] where [body] may return. *)
Definition when (cond : bool) (body : C unit) : C unit :=
  if cond then body else ret tt.

(** [for (i = lo; ...; i++) body] run for [n] iterations. *)
Fixpoint for_loop (n : nat) (i : Z) (body : Z -> C unit) : C unit :=
  match n with
  | O => ret tt
  | S k => body i ;; for_loop k (i + 1) body
  end.

(** A function body always leaves through [return]. *)
Definition call (body : C Empty_set) (m : machine) : Z * machine :=
  match body m with
  | (Return s, m') => (s, m')
  | (Continue e, _) => match e with end
  end.

(** ** Library and system calls *)

Definition malloc (size : Z) : C nat :=
  fun m =>
    let p := next_block m in
    (Continue p,
     log (EvMalloc size p)
         (mkMachine (p :: heap m) (S p) (fds m) (buf m) (tile_1d m) (tile m)
                    (trace m))).

Definition free (p : nat) : C unit :=
  fun m =>
    (Continue tt,
     log (EvFree p)
         (mkMachine (remove Nat.eq_dec p (heap m)) (next_block m) (fds m)
                    (buf m) (tile_1d m) (tile m) (trace m))).

Definition sys_open (env : os) (file : string) : C Z :=
  fun m =>
    let fd := os_open env file in
    (Continue fd,
     log (EvOpen file fd)
         (mkMachine (heap m) (next_block m)
                    (if fd =? -1 then fds m else fd :: fds m)
                    (buf m) (tile_1d m) (tile m) (trace m))).

(** The kernel copies what the file has, never more than [count] bytes
    and never more than [SSIZE_MAX], and returns how many it copied. *)
Definition transfer (count : Z) (data : list byte) : list byte :=
  firstn (Z.to_nat (Z.min count CSize.ssize_max)) data.

Definition sys_read (env : os) (fd count : Z) : C Z :=
  fun m =>
    match os_read env fd count with
    | ReadError => (Continue (-1), log (EvRead fd count (-1)) m)
    | ReadBytes data =>
        let got := transfer count data in
        let n := Z.of_nat (List.length got) in
        (Continue n,
         log (EvRead fd count n)
             (mkMachine (heap m) (next_block m) (fds m)
                        (mem_write_bytes (buf m) 0 got)
                        (tile_1d m) (tile m) (trace m)))
    end.

Definition sys_close (env : os) (fd : Z) : C Z :=
  fun m =>
    let r := os_close env fd in
    (Continue r,
     log (EvClose fd r)
         (mkMachine (heap m) (next_block m)
                    (if r =? -1 then fds m else remove Z.eq_dec fd (fds m))
                    (buf m) (tile_1d m) (tile m) (trace m))).

Definition perror (msg : string) : C unit :=
  fun m => (Continue tt, log (EvPerror msg) m).

Definition newline : string := String (Ascii.ascii_of_nat 10) EmptyString.

Definition printf (line : string) : C unit :=
  fun m => (Continue tt, log (EvPrintf line) m).

(** ** Array accesses *)

Definition load_buf (p : Z) : C byte := fun m => (Continue (buf m p), m).

(** The read [tile_1d[p]] of line 103.  Within [0, narray) it gives the
    element the decoding loop assigned, or what the stack held when the
    loop assigned none.  At or past [narray] the read leaves the array
    (see above): what the image gives there stands for a value the model
    does not determine. *)
Definition load_tile_1d (p : Z) : C F32.float :=
  fun m => (Continue (tile_1d m p), m).

Definition store_tile_1d (p : Z) (v : F32.float) : C unit :=
  fun m =>
    (Continue tt,
     mkMachine (heap m) (next_block m) (fds m) (buf m)
               (mem_store (tile_1d m) p v) (tile m) (trace m)).

Definition store_tile (p : Z) (v : F32.float) : C unit :=
  fun m =>
    (Continue tt,
     log (EvTileStore p v)
         (mkMachine (heap m) (next_block m) (fds m) (buf m) (tile_1d m)
                    (mem_store (tile m) p v) (trace m))).

(** ** [c_get_tile] *)

Definition GEOG_BIG_ENDIAN : Z := 0.
Definition GEOG_LITTLE_ENDIAN : Z := 1.

(** Lines 87-94: the integer a sample's bytes stand for, [case 2]. *)
Definition sample_value (word_size : Z) (b0 b1 : byte) : Z :=
  let value := Z.lor (Z.shiftl (u8 b0) 8) (u8 b1) in
  if Z.shiftr (u8 b0) 7 =? 1
  then CInt.sub value (CInt.shl 1 (CInt.mul 8 word_size))
  else value.

(** Lines 81-97: the body of the decoding loop; the [switch] has the
    single label 2 and no default. *)
Definition decode_sample (word_size i : Z) : C unit :=
  if word_size =? 2 then
    b0 <- load_buf (CInt.mul word_size i) ;;
    b1 <- load_buf (CInt.add (CInt.mul word_size i) 1) ;;
    store_tile_1d i (F32.of_int (sample_value word_size b0 b1))
  else ret tt.

(** Line 103: the body of the remapping loops. *)
Definition remap_sample (dx x_offset j i : Z) : C unit :=
  v <- load_tile_1d (CInt.add (CInt.mul (CInt.add dx x_offset) j) i) ;;
  store_tile (CInt.add (CInt.mul i dx) j) v.

(** Line 56: the number of samples of the padded extent. *)
Definition narray (dx dy x_offset y_offset : Z) : Z :=
  CInt.mul (CInt.add dx x_offset) (CInt.add dy y_offset).

(** Line 60: the argument of [malloc], computed in [size_t]. *)
Definition buf_size (word_size n : Z) : Z :=
  CSize.mul (CSize.mul 1 (CSize.wrap word_size)) (CSize.wrap n).

(** Line 69: the count handed to [read], computed in [int] and converted
    to [size_t]. *)
Definition read_count (word_size n : Z) : Z :=
  CSize.wrap (CInt.mul word_size n).

Definition c_get_tile_body (env : os) (file : string)
    (dx dy x_offset y_offset word_size : Z) : C Empty_set :=
  let n := narray dx dy x_offset y_offset in
  p <- malloc (buf_size word_size n) ;;
  fd <- sys_open env file ;;
  when (fd =? -1)
    (perror "OPEN ERROR: " ;;
     printf ("C filename was: " ++ file ++ newline) ;;
     c_return (-1)) ;;
  r <- sys_read env fd (read_count word_size n) ;;
  let numBytes := CSize.wrap r in
  when (numBytes =? CSize.wrap (-1))
    (perror "READ ERROR: " ;;
     c_return (-1)) ;;
  rc <- sys_close env fd ;;
  when (rc =? -1)
    (perror "CLOSE ERROR: " ;;
     c_return (-1)) ;;
  for_loop (Z.to_nat n) 0 (decode_sample word_size) ;;
  for_loop (Z.to_nat (CInt.add dx x_offset)) 0 (fun j =>
    for_loop (Z.to_nat (CInt.add dy y_offset)) 0 (fun i =>
      remap_sample dx x_offset j i)) ;;
  free p ;;
  c_return 1.

Definition c_get_tile (env : os) (file : string)
    (dx dy x_offset y_offset word_size : Z) (m : machine) : Z * machine :=
  call (c_get_tile_body env file dx dy x_offset y_offset word_size) m.

(** ** What the two loops compute *)

(** The contents of [tile_1d] after [n] iterations of the decoding loop
    that start at index [i]. *)
Fixpoint decode_mem (word_size : Z) (n : nat) (i : Z) (b : mem byte)
    (t : mem F32.float) : mem F32.float :=
  match n with
  | O => t
  | S k =>
      decode_mem word_size k (i + 1) b
        (if word_size =? 2
         then mem_store t i
                (F32.of_int
                   (sample_value word_size (b (CInt.mul word_size i))
                      (b (CInt.add (CInt.mul word_size i) 1))))
         else t)
  end.

(** The stores of [n] iterations of the inner remapping loop, column [j],
    starting at row [i]; then of [n] iterations of the outer loop. *)
Fixpoint remap_row (dx x_offset : Z) (t : mem F32.float) (j : Z) (n : nat)
    (i : Z) : list event :=
  match n with
  | O => []
  | S k =>
      EvTileStore (CInt.add (CInt.mul i dx) j)
                  (t (CInt.add (CInt.mul (CInt.add dx x_offset) j) i))
      :: remap_row dx x_offset t j k (i + 1)
  end.

Fixpoint remap_rows (dx x_offset : Z) (t : mem F32.float) (rows : nat)
    (n : nat) (j : Z) : list event :=
  match n with
  | O => []
  | S k =>
      remap_row dx x_offset t j rows 0
      ++ remap_rows dx x_offset t rows k (j + 1)
  end.

(** The caller's array after a sequence of events. *)
Fixpoint replay (evs : list event) (t : mem F32.float) : mem F32.float :=
  match evs with
  | [] => t
  | EvTileStore p v :: rest => replay rest (mem_store t p v)
  | _ :: rest => replay rest t
  end.

Definition is_tile_store (e : event) : bool :=
  match e with EvTileStore _ _ => true | _ => false end.

Definition is_close (e : event) : bool :=
  match e with EvClose _ _ => true | _ => false end.

Definition is_free (e : event) : bool :=
  match e with EvFree _ => true | _ => false end.

(** The events a call added to the trace it started from. *)
Definition events_of_call (m m' : machine) : list event :=
  skipn (List.length (trace m)) (trace m').

(** ** Which exit a call takes *)

(** The exit is decided by what the three system calls answer. *)
Inductive path : Type := OpenFailed | ReadFailed | CloseFailed | Completed.

Definition path_of (env : os) (file : string)
    (dx dy x_offset y_offset word_size : Z) : path :=
  let fd := os_open env file in
  if fd =? -1 then OpenFailed
  else
    match os_read env fd
            (read_count word_size (narray dx dy x_offset y_offset)) with
    | ReadError => ReadFailed
    | ReadBytes _ => if os_close env fd =? -1 then CloseFailed else Completed
    end.

Definition status_of (q : path) : Z :=
  match q with Completed => 1 | _ => -1 end.

(** ** What each exit leaves behind

    The machine at each of the four [return] statements, written out; the
    path lemmas below prove that the call produces exactly these. *)

(** The events every call starts with (lines 60 and 62). *)
Definition prologue (file : string) (word_size n : Z) (p : nat) (fd : Z)
    : list event :=
  [EvMalloc (buf_size word_size n) p; EvOpen file fd].

(** Line 66. *)
Definition after_open_failure (env : os) (file : string)
    (dx dy x_offset y_offset word_size : Z) (m : machine) : machine :=
  let n := narray dx dy x_offset y_offset in
  let p := next_block m in
  let fd := os_open env file in
  mkMachine (p :: heap m) (S p) (fds m) (buf m) (tile_1d m) (tile m)
    (trace m ++ prologue file word_size n p fd
       ++ [EvPerror "OPEN ERROR: ";
           EvPrintf ("C filename was: " ++ file ++ newline)]).

(** Line 72. *)
Definition after_read_failure (env : os) (file : string)
    (dx dy x_offset y_offset word_size : Z) (m : machine) : machine :=
  let n := narray dx dy x_offset y_offset in
  let p := next_block m in
  let fd := os_open env file in
  let count := read_count word_size n in
  mkMachine (p :: heap m) (S p) (fd :: fds m) (buf m) (tile_1d m) (tile m)
    (trace m ++ prologue file word_size n p fd
       ++ [EvRead fd count (-1); EvPerror "READ ERROR: "]).

(** Line 76. *)
Definition after_close_failure (env : os) (file : string)
    (dx dy x_offset y_offset word_size : Z) (m : machine)
    (data : list byte) : machine :=
  let n := narray dx dy x_offset y_offset in
  let p := next_block m in
  let fd := os_open env file in
  let count := read_count word_size n in
  let got := transfer count data in
  mkMachine (p :: heap m) (S p) (fd :: fds m)
    (mem_write_bytes (buf m) 0 got) (tile_1d m) (tile m)
    (trace m ++ prologue file word_size n p fd
       ++ [EvRead fd count (Z.of_nat (List.length got));
           EvClose fd (os_close env fd);
           EvPerror "CLOSE ERROR: "]).

(** Line 109. *)
Definition after_success (env : os) (file : string)
    (dx dy x_offset y_offset word_size : Z) (m : machine)
    (data : list byte) : machine :=
  let n := narray dx dy x_offset y_offset in
  let p := next_block m in
  let fd := os_open env file in
  let count := read_count word_size n in
  let got := transfer count data in
  let samples :=
    decode_mem word_size (Z.to_nat n) 0 (mem_write_bytes (buf m) 0 got)
      (tile_1d m) in
  let stores :=
    remap_rows dx x_offset samples (Z.to_nat (CInt.add dy y_offset))
      (Z.to_nat (CInt.add dx x_offset)) 0 in
  mkMachine (remove Nat.eq_dec p (heap m)) (S p)
    (remove Z.eq_dec fd (fds m))
    (mem_write_bytes (buf m) 0 got) samples (replay stores (tile m))
    (trace m ++ prologue file word_size n p fd
       ++ [EvRead fd count (Z.of_nat (List.length got));
           EvClose fd (os_close env fd)]
       ++ stores ++ [EvFree p]).

(** ** Checking a range of integers *)

(** [p] holds of the [n] integers from [lo] on. *)
Fixpoint all_from (n : nat) (lo : Z) (p : Z -> bool) : bool :=
  match n with
  | O => true
  | S k => p lo && all_from k (lo + 1) p
  end.

(** ** Concrete files and machines *)

(** A file system with the single regular file [name]: it opens as
    descriptor 3, every read delivers its contents, and it closes. *)
Definition regular_file (name : string) (contents : list byte) : os :=
  mkOs (fun f => if String.eqb f name then 3 else -1)
       (fun fd _ => if fd =? 3 then ReadBytes contents else ReadError)
       (fun fd => if fd =? 3 then 0 else -1).

(** The same file on a device whose reads fail, and on one whose close
    fails. *)
Definition unreadable_file (name : string) : os :=
  mkOs (fun f => if String.eqb f name then 3 else -1)
       (fun _ _ => ReadError)
       (fun fd => if fd =? 3 then 0 else -1).

Definition unclosable_file (name : string) (contents : list byte) : os :=
  mkOs (fun f => if String.eqb f name then 3 else -1)
       (fun fd _ => if fd =? 3 then ReadBytes contents else ReadError)
       (fun _ => -1).

(** A process with the three standard descriptors and an empty heap;
    [garbage] and [stack] are the images of the fresh heap block and of
    the fresh stack array: what they happen to hold within their extents,
    and stand-ins outside. *)
Definition start (garbage : mem byte) (stack out : mem F32.float) : machine :=
  mkMachine [] 0 [0; 1; 2] garbage stack out [].

Definition zeroed : machine :=
  start (fun _ => Byte.x00) (fun _ => S754_zero false)
        (fun _ => S754_zero false).

(** Samples 1, -1, 100, -100. *)
Definition four_samples : list byte :=
  [Byte.x00; Byte.x01; Byte.xff; Byte.xff;
   Byte.x00; Byte.x64; Byte.xff; Byte.x9c].

(** The decoding the specification words describe: a big-endian 16-bit
    word, minus 2^16 when the top bit of the first byte is set. *)
Definition spec_decode16 (b0 b1 : byte) : Z :=
  let w := Z.lor (Z.shiftl (u8 b0) 8) (u8 b1) in
  if Z.testbit (u8 b0) 7 then w - 2 ^ 16 else w.

(** ** Requests whose index arithmetic stays within [int] *)

(** Positive dimensions, non-negative offsets, and the largest subscript
    each of the two arrays sees in the remapping loops is an [int]. *)
Definition request_fits (dx dy x_offset y_offset : Z) : Prop :=
  0 < dx /\ 0 < dy /\ 0 <= x_offset /\ 0 <= y_offset /\
  dx + x_offset <= CInt.max_int /\ dy + y_offset <= CInt.max_int /\
  (dx + x_offset) * (dx + x_offset - 1) + (dy + y_offset - 1)
    <= CInt.max_int /\
  (dy + y_offset - 1) * dx + (dx + x_offset - 1) <= CInt.max_int.

(** The hypotheses under which every sample the remapping reads was
    decoded from the file: 16-bit words, an extent no wider than it is
    tall, sizes within [int], and a file that holds the whole extent. *)
Definition decoded_in_full (env : os) (file : string)
    (dx dy x_offset y_offset word_size : Z) : Prop :=
  word_size = 2 /\
  0 < dx /\ 0 < dy /\ 0 <= x_offset /\ 0 <= y_offset /\
  dx + x_offset <= dy + y_offset /\
  2 * ((dx + x_offset) * (dy + y_offset)) <= CInt.max_int /\
  forall data,
    os_read env (os_open env file)
      (read_count word_size (narray dx dy x_offset y_offset))
    = ReadBytes data ->
    read_count word_size (narray dx dy x_offset y_offset)
    <= Z.of_nat (List.length data).

(** A machine whose fresh stack array holds [v] everywhere. *)
Definition stack_holding (v : F32.float) : machine :=
  start (fun _ => Byte.x00) (fun _ => v) (fun _ => S754_zero false).

(** The same request, 8-bit words, run over two stacks. *)
Definition run_on_stack (v : F32.float) : Z * machine :=
  c_get_tile (regular_file "tile.bin" four_samples) "tile.bin" 2 2 0 0 1
    (stack_holding v).

(** ** Kinds of events *)

Definition is_diagnostic (e : event) : bool :=
  match e with EvPerror _ | EvPrintf _ => true | _ => false end.

Definition is_malloc (e : event) : bool :=
  match e with EvMalloc _ _ => true | _ => false end.

Definition is_read (e : event) : bool :=
  match e with EvRead _ _ _ => true | _ => false end.

(** Lines 64-65, 71 and 75: what each exit prints. *)
Definition diagnostics_of (q : path) (file : string) : list event :=
  match q with
  | OpenFailed =>
      [EvPerror "OPEN ERROR: ";
       EvPrintf ("C filename was: " ++ file ++ newline)]
  | ReadFailed => [EvPerror "READ ERROR: "]
  | CloseFailed => [EvPerror "CLOSE ERROR: "]
  | Completed => []
  end.

(** The float the decoding loop gives sample [k] of a file that holds
    16-bit words: bytes [2k] and [2k+1] through [sample_value]. *)
Definition file_sample (data : list byte) (k : Z) : F32.float :=
  F32.of_int
    (sample_value 2 (nth (Z.to_nat (2 * k)) data Byte.x00)
       (nth (Z.to_nat (2 * k + 1)) data Byte.x00)).

(** * Properties *)

(** ** Arithmetic of the scalar types *)

Lemma wrap_in_range (z : Z) : CInt.in_range z -> CInt.wrap z = z.
Proof.
  unfold CInt.in_range, CInt.min_int, CInt.max_int, CInt.wrap. intros H.
  rewrite Z.mod_small; lia.
Qed.

Lemma add_exact (x y : Z) : CInt.in_range (x + y) -> CInt.add x y = x + y.
Proof. apply wrap_in_range. Qed.

Lemma mul_exact (x y : Z) : CInt.in_range (x * y) -> CInt.mul x y = x * y.
Proof. apply wrap_in_range. Qed.

Lemma size_wrap_small (z : Z) : 0 <= z < 2 ^ 64 -> CSize.wrap z = z.
Proof. intros H. unfold CSize.wrap. apply Z.mod_small. exact H. Qed.

Lemma u8_range (b : byte) : 0 <= u8 b <= 255.
Proof.
  unfold u8. pose proof (Byte.to_N_bounded b) as H. lia.
Qed.

Lemma shiftl8_lor (a b : Z) :
  0 <= b < 256 -> Z.lor (Z.shiftl a 8) b = a * 256 + b.
Proof.
  intros Hb.
  assert (Hland : Z.land (Z.shiftl a 8) b = 0).
  { apply Z.bits_inj'. intros n Hn.
    rewrite Z.land_spec, Z.bits_0.
    destruct (Z.ltb_spec n 8) as [Hlt | Hge].
    - rewrite Z.shiftl_spec_low by lia. reflexivity.
    - destruct (Z.eqb_spec b 0) as [-> | Hnz].
      + rewrite Z.bits_0. apply andb_false_r.
      + rewrite (Z.bits_above_log2 b n); [apply andb_false_r | lia | ].
        apply Z.log2_lt_pow2; [lia | ].
        apply Z.lt_le_trans with (2 ^ 8); [simpl; lia | ].
        apply Z.pow_le_mono_r; lia. }
  rewrite <- Z.lxor_lor by exact Hland.
  rewrite <- Z.add_nocarry_lxor by exact Hland.
  rewrite Z.shiftl_mul_pow2 by lia. reflexivity.
Qed.

Lemma top_bit_test (a : Z) :
  0 <= a <= 255 -> (Z.shiftr a 7 =? 1) = (128 <=? a).
Proof.
  intros Ha. rewrite Z.shiftr_div_pow2 by lia.
  change (2 ^ 7) with 128.
  destruct (Z.leb_spec 128 a) as [Hge | Hlt].
  - apply Z.eqb_eq. symmetry. apply (Z.div_unique a 128 1 (a - 128)); lia.
  - rewrite Z.div_small by lia. reflexivity.
Qed.

(** The sample of two bytes, as plain arithmetic. *)
Lemma sample_value_arith (b0 b1 : byte) :
  sample_value 2 b0 b1 =
  u8 b0 * 256 + u8 b1 - (if 128 <=? u8 b0 then 65536 else 0).
Proof.
  pose proof (u8_range b0) as H0. pose proof (u8_range b1) as H1.
  unfold sample_value.
  rewrite shiftl8_lor by lia. rewrite top_bit_test by lia.
  destruct (Z.leb_spec 128 (u8 b0)) as [Hge | Hlt]; [ | lia].
  change (CInt.shl 1 (CInt.mul 8 2)) with 65536.
  unfold CInt.sub. apply wrap_in_range.
  unfold CInt.in_range, CInt.min_int, CInt.max_int. lia.
Qed.

Lemma sample_value_range (b0 b1 : byte) :
  -32768 <= sample_value 2 b0 b1 <= 32767.
Proof.
  rewrite sample_value_arith.
  pose proof (u8_range b0) as H0. pose proof (u8_range b1) as H1.
  destruct (Z.leb_spec 128 (u8 b0)); lia.
Qed.

Lemma all_from_spec (p : Z -> bool) (n : nat) (lo v : Z) :
  all_from n lo p = true -> lo <= v < lo + Z.of_nat n -> p v = true.
Proof.
  revert lo. induction n as [ | k IH]; intros lo Hall Hv.
  - lia.
  - simpl in Hall. apply andb_prop in Hall. destruct Hall as [Hlo Hrest].
    destruct (Z.eq_dec v lo) as [-> | Hne]; [exact Hlo | ].
    apply (IH (lo + 1)); [exact Hrest | lia].
Qed.

(** Every 16-bit integer converts to binary32 without rounding. *)
Lemma int16_exact_all :
  all_from (Z.to_nat 65536) (-32768) F32.exactb = true.
Proof. vm_compute. reflexivity. Qed.

Lemma int16_exact (v : Z) :
  -32768 <= v <= 32767 ->
  valid_binary F32.prec F32.emax (F32.of_int v) = true /\
  F32.to_Z (F32.of_int v) = Some v.
Proof.
  intros Hv.
  assert (H : F32.exactb v = true).
  { apply (all_from_spec F32.exactb _ _ v int16_exact_all).
    rewrite Z2Nat.id; lia. }
  unfold F32.exactb in H. apply andb_prop in H. destruct H as [Hvalid Hz].
  split; [exact Hvalid | ].
  destruct (F32.to_Z (F32.of_int v)) as [w | ]; [ | discriminate].
  apply Z.eqb_eq in Hz. congruence.
Qed.

(** ** Running the loops *)

Lemma replay_app (a b : list event) (t : mem F32.float) :
  replay (a ++ b) t = replay b (replay a t).
Proof.
  revert t. induction a as [ | e a IH]; intros t; [reflexivity | ].
  destruct e; simpl; apply IH.
Qed.

Lemma decode_loop_run (word_size : Z) (n : nat) (i : Z) (m : machine) :
  for_loop n i (decode_sample word_size) m =
  (Continue tt,
   mkMachine (heap m) (next_block m) (fds m) (buf m)
             (decode_mem word_size n i (buf m) (tile_1d m))
             (tile m) (trace m)).
Proof.
  revert i m. induction n as [ | k IH]; intros i m.
  - destruct m; reflexivity.
  - simpl. unfold bind at 1. unfold decode_sample at 1.
    destruct (word_size =? 2).
    + unfold bind, load_buf, store_tile_1d. rewrite IH. reflexivity.
    + unfold ret. rewrite IH. reflexivity.
Qed.

Lemma remap_row_run (dx x_offset j : Z) (n : nat) (i : Z) (m : machine) :
  for_loop n i (remap_sample dx x_offset j) m =
  (Continue tt,
   mkMachine (heap m) (next_block m) (fds m) (buf m) (tile_1d m)
             (replay (remap_row dx x_offset (tile_1d m) j n i) (tile m))
             (trace m ++ remap_row dx x_offset (tile_1d m) j n i)).
Proof.
  revert i m. induction n as [ | k IH]; intros i m.
  - destruct m; simpl. unfold ret. rewrite app_nil_r. reflexivity.
  - simpl. unfold bind at 1. unfold remap_sample at 1.
    unfold bind, load_tile_1d, store_tile, log. rewrite IH. simpl.
    rewrite <- app_assoc. reflexivity.
Qed.

Lemma remap_rows_run (dx x_offset : Z) (rows n : nat) (j : Z) (m : machine) :
  for_loop n j
    (fun j => for_loop rows 0 (fun i => remap_sample dx x_offset j i)) m =
  (Continue tt,
   mkMachine (heap m) (next_block m) (fds m) (buf m) (tile_1d m)
             (replay (remap_rows dx x_offset (tile_1d m) rows n j) (tile m))
             (trace m ++ remap_rows dx x_offset (tile_1d m) rows n j)).
Proof.
  revert j m. induction n as [ | k IH]; intros j m.
  - destruct m; simpl. unfold ret. rewrite app_nil_r. reflexivity.
  - simpl. unfold bind at 1.
    change (fun i : Z => remap_sample dx x_offset j i)
      with (remap_sample dx x_offset j).
    rewrite remap_row_run. rewrite IH. simpl.
    rewrite replay_app, <- app_assoc. reflexivity.
Qed.

(** ** The call, path by path *)

Lemma read_never_minus_one (count : Z) (data : list byte) :
  (CSize.wrap (Z.of_nat (List.length (transfer count data)))
   =? CSize.wrap (-1)) = false.
Proof.
  apply Z.eqb_neq.
  pose proof (firstn_le_length (Z.to_nat (Z.min count CSize.ssize_max)) data)
    as Hlen.
  fold (transfer count data) in Hlen.
  set (len := List.length _) in *.
  assert (Hmax : Z.of_nat len <= 2 ^ 63 - 1).
  { unfold CSize.ssize_max in Hlen. lia. }
  rewrite size_wrap_small by lia.
  change (CSize.wrap (-1)) with (2 ^ 64 - 1). lia.
Qed.

Lemma bind_step {A B : Type} (c : C A) (k : A -> C B) (m : machine) :
  bind c k m =
  match c m with
  | (Continue a, m') => k a m'
  | (Return s, m') => (Return s, m')
  end.
Proof. reflexivity. Qed.

Lemma when_true (body : C unit) (m : machine) : when true body m = body m.
Proof. reflexivity. Qed.

Lemma when_false (body : C unit) (m : machine) :
  when false body m = (Continue tt, m).
Proof. reflexivity. Qed.

(** One statement of the body: run it and enter the continuation. *)
Ltac step :=
  rewrite bind_step; cbv beta iota zeta;
  unfold log; cbn [heap next_block fds buf tile_1d tile trace].

Ltac finish :=
  unfold log; cbn [heap next_block fds buf tile_1d tile trace];
  rewrite <- ?app_assoc; reflexivity.

Ltac head_of_call :=
  unfold c_get_tile, call, c_get_tile_body,
    after_open_failure, after_read_failure, after_close_failure,
    after_success, prologue;
  cbv zeta;
  unfold malloc; step; unfold sys_open; step.

Lemma open_failure_path env file dx dy x_offset y_offset word_size m :
  os_open env file = -1 ->
  c_get_tile env file dx dy x_offset y_offset word_size m =
  (-1, after_open_failure env file dx dy x_offset y_offset word_size m).
Proof.
  intros Hfd. apply Z.eqb_eq in Hfd. head_of_call.
  rewrite Hfd. step. rewrite when_true.
  unfold perror at 1; step. unfold printf; step.
  unfold c_return at 1. finish.
Qed.

Lemma read_failure_path env file dx dy x_offset y_offset word_size m :
  os_open env file <> -1 ->
  os_read env (os_open env file)
    (read_count word_size (narray dx dy x_offset y_offset)) = ReadError ->
  c_get_tile env file dx dy x_offset y_offset word_size m =
  (-1, after_read_failure env file dx dy x_offset y_offset word_size m).
Proof.
  intros Hfd Hread. apply Z.eqb_neq in Hfd. head_of_call.
  rewrite Hfd. step. rewrite when_false.
  unfold sys_read; step. rewrite Hread.
  change (CSize.wrap (-1) =? CSize.wrap (-1)) with true.
  step. rewrite when_true.
  unfold perror at 1; step.
  unfold c_return at 1. finish.
Qed.

Lemma close_failure_path env file dx dy x_offset y_offset word_size m data :
  os_open env file <> -1 ->
  os_read env (os_open env file)
    (read_count word_size (narray dx dy x_offset y_offset))
    = ReadBytes data ->
  os_close env (os_open env file) = -1 ->
  c_get_tile env file dx dy x_offset y_offset word_size m =
  (-1,
   after_close_failure env file dx dy x_offset y_offset word_size m data).
Proof.
  intros Hfd Hread Hrc.
  apply Z.eqb_neq in Hfd. apply Z.eqb_eq in Hrc. head_of_call.
  rewrite Hfd. step. rewrite when_false.
  unfold sys_read; step. rewrite Hread.
  rewrite read_never_minus_one.
  step. rewrite when_false.
  unfold sys_close; step. rewrite Hrc.
  step. rewrite when_true.
  unfold perror at 1; step.
  unfold c_return at 1. finish.
Qed.

Lemma success_path env file dx dy x_offset y_offset word_size m data :
  os_open env file <> -1 ->
  os_read env (os_open env file)
    (read_count word_size (narray dx dy x_offset y_offset))
    = ReadBytes data ->
  os_close env (os_open env file) <> -1 ->
  c_get_tile env file dx dy x_offset y_offset word_size m =
  (1, after_success env file dx dy x_offset y_offset word_size m data).
Proof.
  intros Hfd Hread Hrc.
  apply Z.eqb_neq in Hfd. apply Z.eqb_neq in Hrc. head_of_call.
  rewrite Hfd. step. rewrite when_false.
  unfold sys_read; step. rewrite Hread.
  rewrite read_never_minus_one.
  step. rewrite when_false.
  unfold sys_close; step. rewrite Hrc.
  step. rewrite when_false.
  step. rewrite decode_loop_run.
  step. rewrite remap_rows_run.
  unfold free; step. unfold c_return.
  unfold log; cbn [heap next_block fds buf tile_1d tile trace remove].
  destruct (Nat.eq_dec (next_block m) (next_block m)) as [_ | Hne];
    [ | contradiction].
  destruct (Z.eq_dec (os_open env file) (os_open env file)) as [_ | Hne];
    [ | contradiction].
  rewrite <- ?app_assoc. reflexivity.
Qed.

(** Rewriting with a path lemma, then reading the machine it names. *)
Tactic Notation "on_path" open_constr(L) :=
  rewrite !L by assumption;
  unfold after_open_failure, after_read_failure, after_close_failure,
    after_success, prologue;
  cbn [fst snd heap next_block fds buf tile_1d tile trace].

Lemma status_of_path env file dx dy x_offset y_offset word_size m :
  fst (c_get_tile env file dx dy x_offset y_offset word_size m) =
  status_of (path_of env file dx dy x_offset y_offset word_size).
Proof.
  unfold path_of.
  destruct (Z.eqb_spec (os_open env file) (-1)) as [Hfd | Hfd].
  - on_path open_failure_path. reflexivity.
  - destruct (os_read env (os_open env file)
                (read_count word_size (narray dx dy x_offset y_offset)))
      as [ | data] eqn:Hread.
    + on_path read_failure_path. reflexivity.
    + destruct (Z.eqb_spec (os_close env (os_open env file)) (-1))
        as [Hrc | Hrc].
      * on_path (close_failure_path _ _ _ _ _ _ _ _ data).
        reflexivity.
      * on_path (success_path _ _ _ _ _ _ _ _ data).
        reflexivity.
Qed.

Lemma events_of_call_app (m m' : machine) (evs : list event) :
  trace m' = trace m ++ evs -> events_of_call m m' = evs.
Proof.
  intros H. unfold events_of_call. rewrite H.
  rewrite skipn_app, skipn_all, Nat.sub_diag. reflexivity.
Qed.

(** A failing call leaves the caller's array alone, keeps the heap
    block, and stores nothing. *)
Lemma failure_state env file dx dy x_offset y_offset word_size m :
  path_of env file dx dy x_offset y_offset word_size <> Completed ->
  let m' := snd (c_get_tile env file dx dy x_offset y_offset word_size m) in
  tile m' = tile m /\
  tile_1d m' = tile_1d m /\
  heap m' = next_block m :: heap m /\
  forallb (fun e => negb (is_tile_store e || is_free e))
          (events_of_call m m') = true.
Proof.
  unfold path_of.
  destruct (Z.eqb_spec (os_open env file) (-1)) as [Hfd | Hfd].
  - intros _. on_path open_failure_path. cbn [snd tile tile_1d heap].
    erewrite events_of_call_app by reflexivity. repeat split.
  - destruct (os_read env (os_open env file)
                (read_count word_size (narray dx dy x_offset y_offset)))
      as [ | data] eqn:Hread.
    + intros _. on_path read_failure_path.
      cbn [snd tile tile_1d heap].
      erewrite events_of_call_app by reflexivity. repeat split.
    + destruct (Z.eqb_spec (os_close env (os_open env file)) (-1))
        as [Hrc | Hrc]; [ | intros H; contradiction].
      intros _.
      on_path (close_failure_path _ _ _ _ _ _ _ _ data).
      cbn [snd tile tile_1d heap].
      erewrite events_of_call_app by reflexivity. repeat split.
Qed.

(** ** The stores of the remapping loops *)

Lemma in_remap_row dx x_offset t j n i0 e :
  In e (remap_row dx x_offset t j n i0) <->
  exists i, i0 <= i < i0 + Z.of_nat n /\
    e = EvTileStore (CInt.add (CInt.mul i dx) j)
          (t (CInt.add (CInt.mul (CInt.add dx x_offset) j) i)).
Proof.
  revert i0. induction n as [ | k IH]; intros i0.
  - simpl. split; [tauto | ]. intros [i [Hi _]]. lia.
  - cbn [remap_row In]. rewrite IH. split.
    + intros [He | [i [Hi He]]].
      * exists i0. split; [lia | congruence].
      * exists i. split; [lia | exact He].
    + intros [i [Hi He]].
      destruct (Z.eq_dec i i0) as [-> | Hne]; [left; congruence | ].
      right. exists i. split; [lia | exact He].
Qed.

Lemma in_remap_rows dx x_offset t rows n j0 e :
  In e (remap_rows dx x_offset t rows n j0) <->
  exists j i, j0 <= j < j0 + Z.of_nat n /\ 0 <= i < Z.of_nat rows /\
    e = EvTileStore (CInt.add (CInt.mul i dx) j)
          (t (CInt.add (CInt.mul (CInt.add dx x_offset) j) i)).
Proof.
  revert j0. induction n as [ | k IH]; intros j0.
  - simpl. split; [tauto | ]. intros [j [i [Hj _]]]. lia.
  - cbn [remap_rows]. rewrite in_app_iff, IH, in_remap_row. split.
    + intros [[i [Hi He]] | [j [i [Hj [Hi He]]]]].
      * exists j0, i. repeat split; try lia. exact He.
      * exists j, i. repeat split; try lia. exact He.
    + intros [j [i [Hj [Hi He]]]].
      destruct (Z.eq_dec j j0) as [-> | Hne].
      * left. exists i. split; [lia | exact He].
      * right. exists j, i. repeat split; try lia. exact He.
Qed.

Lemma remap_rows_only_stores dx x_offset t rows n j0 :
  forallb is_tile_store (remap_rows dx x_offset t rows n j0) = true.
Proof.
  apply forallb_forall. intros e He.
  apply in_remap_rows in He. destruct He as [j [i [_ [_ ->]]]]. reflexivity.
Qed.

Lemma remap_rows_length dx x_offset t rows n j0 :
  List.length (remap_rows dx x_offset t rows n j0) = (n * rows)%nat.
Proof.
  assert (Hrow : forall j k i, List.length (remap_row dx x_offset t j k i) = k).
  { intros j k. induction k as [ | k IH]; intros i; simpl; [ | rewrite IH];
      reflexivity. }
  revert j0. induction n as [ | k IH]; intros j0; simpl; [reflexivity | ].
  rewrite length_app, Hrow, IH. reflexivity.
Qed.

(** ** The decoding loop and the buffer *)

Lemma mem_write_bytes_spec (data : list byte) (b : mem byte) (p k : Z) :
  mem_write_bytes b p data k =
  if (p <=? k) && (k <? p + Z.of_nat (List.length data))
  then nth (Z.to_nat (k - p)) data Byte.x00
  else b k.
Proof.
  revert b p. induction data as [ | x rest IH]; intros b p.
  - simpl. destruct (p <=? k) eqn:H1; destruct (k <? p + 0) eqn:H2;
      try reflexivity. apply Z.leb_le in H1. apply Z.ltb_lt in H2. lia.
  - cbn [mem_write_bytes]. rewrite IH. cbn [List.length]. unfold mem_store.
    destruct (Z.leb_spec (p + 1) k) as [Hlo | Hlo];
      destruct (Z.ltb_spec k (p + 1 + Z.of_nat (List.length rest)))
        as [Hhi | Hhi];
      destruct (Z.leb_spec p k) as [Hlo' | Hlo'];
      destruct (Z.ltb_spec k (p + Z.of_nat (S (List.length rest))))
        as [Hhi' | Hhi'];
      cbn [andb]; try lia;
      try (destruct (Z.eqb_spec k p) as [Heq | Hne]; try lia; reflexivity).
    + replace (Z.to_nat (k - p)) with (S (Z.to_nat (k - (p + 1)))) by lia.
      reflexivity.
    + destruct (Z.eqb_spec k p) as [Heq | Hne]; [ | lia].
      subst k. rewrite Z.sub_diag. reflexivity.
Qed.

Lemma decode_mem_other (word_size : Z) (n : nat) (i : Z) b t :
  word_size <> 2 -> decode_mem word_size n i b t = t.
Proof.
  intros Hws. apply Z.eqb_neq in Hws.
  revert i t. induction n as [ | k IH]; intros i t; [reflexivity | ].
  cbn [decode_mem]. rewrite Hws. apply IH.
Qed.

Lemma decode_mem_spec (n : nat) (i0 : Z) b t (k : Z) :
  decode_mem 2 n i0 b t k =
  if (i0 <=? k) && (k <? i0 + Z.of_nat n)
  then F32.of_int (sample_value 2 (b (CInt.mul 2 k))
                     (b (CInt.add (CInt.mul 2 k) 1)))
  else t k.
Proof.
  revert i0 t. induction n as [ | n IH]; intros i0 t.
  - cbn [decode_mem].
    destruct (Z.leb_spec i0 k); destruct (Z.ltb_spec k (i0 + Z.of_nat 0));
      cbn [andb]; try reflexivity. lia.
  - cbn [decode_mem]. change (2 =? 2) with true. cbv iota.
    rewrite IH. unfold mem_store.
    destruct (Z.leb_spec (i0 + 1) k);
      destruct (Z.ltb_spec k (i0 + 1 + Z.of_nat n));
      destruct (Z.leb_spec i0 k);
      destruct (Z.ltb_spec k (i0 + Z.of_nat (S n)));
      cbn [andb]; try lia; try reflexivity;
      destruct (Z.eqb_spec k i0) as [Heq | Hne]; try lia; try reflexivity.
    subst k. reflexivity.
Qed.

(** ** The value of a sample *)

Lemma top_bit_testbit (b : byte) :
  Z.testbit (u8 b) 7 = (Z.shiftr (u8 b) 7 =? 1).
Proof. destruct b; reflexivity. Qed.

Lemma sample_value_spec (b0 b1 : byte) :
  sample_value 2 b0 b1 = spec_decode16 b0 b1.
Proof.
  rewrite sample_value_arith. unfold spec_decode16.
  pose proof (u8_range b0) as H0. pose proof (u8_range b1) as H1.
  rewrite shiftl8_lor by lia.
  rewrite top_bit_testbit, top_bit_test by lia.
  destruct (128 <=? u8 b0); change (2 ^ 16) with 65536; lia.
Qed.

Lemma decode_index_exact (n i : Z) :
  0 <= i < n -> 2 * n <= CInt.max_int ->
  CInt.mul 2 i = 2 * i /\ CInt.add (CInt.mul 2 i) 1 = 2 * i + 1.
Proof.
  intros Hi Hn. unfold CInt.max_int in Hn.
  assert (H1 : CInt.mul 2 i = 2 * i).
  { apply mul_exact. unfold CInt.in_range, CInt.min_int, CInt.max_int. lia. }
  split; [exact H1 | ]. rewrite H1. apply add_exact.
  unfold CInt.in_range, CInt.min_int, CInt.max_int. lia.
Qed.

(** C2.  With [word_size] 2 the decoding loop gives sample [i] the value of
    the big-endian 16-bit word in bytes [2i] and [2i+1] (first byte shifted
    left by 8, or-ed with the second), less 2^16 when the top bit of the
    first byte is set, converted to float; the pairs FF FF, 00 01, 7F FF and
    80 00 give -1.0, 1.0, 32767.0 and -32768.0. *)
Theorem decode_word2_big_endian_signed :
  forall (m : machine) (n : Z),
    0 <= n -> 2 * n <= CInt.max_int ->
    let run := for_loop (Z.to_nat n) 0 (decode_sample 2) m in
    fst run = Continue tt /\
    buf (snd run) = buf m /\
    (forall i, 0 <= i < n ->
       tile_1d (snd run) i =
       F32.of_int (spec_decode16 (buf m (2 * i)) (buf m (2 * i + 1)))) /\
    (forall b0 b1, sample_value 2 b0 b1 = spec_decode16 b0 b1) /\
    F32.of_int (sample_value 2 Byte.xff Byte.xff)
      = S754_finite true 8388608 (-23) /\
    F32.of_int (sample_value 2 Byte.x00 Byte.x01)
      = S754_finite false 8388608 (-23) /\
    F32.of_int (sample_value 2 Byte.x7f Byte.xff)
      = S754_finite false 16776704 (-9) /\
    F32.of_int (sample_value 2 Byte.x80 Byte.x00)
      = S754_finite true 8388608 (-8) /\
    map F32.to_Z
      [S754_finite true 8388608 (-23); S754_finite false 8388608 (-23);
       S754_finite false 16776704 (-9); S754_finite true 8388608 (-8)]
      = [Some (-1); Some 1; Some 32767; Some (-32768)].
Proof.
  intros m n Hn Hfit run. subst run. rewrite decode_loop_run.
  cbn [fst snd buf tile_1d].
  split; [reflexivity | ]. split; [reflexivity | ].
  split.
  { intros i Hi. rewrite decode_mem_spec.
    destruct (decode_index_exact n i Hi Hfit) as [-> ->].
    rewrite sample_value_spec.
    destruct (Z.leb_spec 0 i); [ | lia].
    destruct (Z.ltb_spec i (0 + Z.of_nat (Z.to_nat n))); [reflexivity | lia]. }
  split; [exact sample_value_spec | ].
  repeat split; vm_compute; reflexivity.
Qed.

Lemma decode_word2_big_endian_signed_witness :
  0 <= 2 /\ 2 * 2 <= CInt.max_int /\
  tile_1d
    (snd (for_loop (Z.to_nat 2) 0 (decode_sample 2)
            (start (fun k => if k <? 2 then Byte.xff else Byte.x01)
                   (fun _ => S754_nan) (fun _ => S754_nan)))) 0
  = F32.of_int (spec_decode16 Byte.xff Byte.xff).
Proof.
  assert (H0 : 0 <= 2) by lia.
  assert (H1 : 2 * 2 <= CInt.max_int) by (unfold CInt.max_int; lia).
  assert (H2 : 0 <= 0 < 2) by lia.
  split; [exact H0 | ]. split; [exact H1 | ].
  exact (proj1 (proj2 (proj2
           (decode_word2_big_endian_signed
              (start (fun k => if k <? 2 then Byte.xff else Byte.x01)
                     (fun _ => S754_nan) (fun _ => S754_nan))
              2 H0 H1))) 0 H2).
Defined.

(** C9.  With [word_size] 2 every decoded value lies in the 16-bit
    two's-complement range before it is widened, and the widening is exact:
    the float it becomes is a valid binary32 number that denotes the same
    integer.  This holds of the value computed from any two bytes, and so
    of every sample the decoding loop leaves in [tile_1d]. *)
Theorem sample_value_int16_exact :
  (forall b0 b1 : byte,
     -32768 <= sample_value 2 b0 b1 <= 32767 /\
     F32.representable (sample_value 2 b0 b1) /\
     F32.to_Z (F32.of_int (sample_value 2 b0 b1))
     = Some (sample_value 2 b0 b1)) /\
  (forall (m : machine) (n : nat) (i : Z),
     0 <= i < Z.of_nat n ->
     exists v : Z,
       tile_1d (snd (for_loop n 0 (decode_sample 2) m)) i = F32.of_int v /\
       -32768 <= v <= 32767 /\
       F32.to_Z (F32.of_int v) = Some v).
Proof.
  split.
  - intros b0 b1. pose proof (sample_value_range b0 b1) as Hr.
    destruct (int16_exact _ Hr) as [Hvalid Hz].
    split; [exact Hr | ]. split; [ | exact Hz].
    exists (F32.of_int (sample_value 2 b0 b1)). split; assumption.
  - intros m n i Hi. rewrite decode_loop_run. cbn [snd tile_1d].
    rewrite decode_mem_spec.
    destruct (Z.leb_spec 0 i); [ | lia].
    destruct (Z.ltb_spec i (0 + Z.of_nat n)); [ | lia].
    cbn [andb]. eexists. split; [reflexivity | ].
    pose proof (sample_value_range (buf m (CInt.mul 2 i))
                  (buf m (CInt.add (CInt.mul 2 i) 1))) as Hr.
    split; [exact Hr | ]. apply int16_exact. exact Hr.
Qed.

Lemma sample_value_int16_exact_witness :
  0 <= 1 < Z.of_nat 2 /\
  exists v : Z,
    tile_1d (snd (for_loop 2 0 (decode_sample 2) zeroed)) 1 = F32.of_int v /\
    -32768 <= v <= 32767 /\
    F32.to_Z (F32.of_int v) = Some v.
Proof.
  assert (Hi : 0 <= 1 < Z.of_nat 2) by (simpl; lia).
  split; [exact Hi | ].
  exact (proj2 sample_value_int16_exact zeroed 2%nat 1 Hi).
Defined.

(** ** Status and exits *)

Lemma path_completed_iff env file dx dy x_offset y_offset word_size :
  path_of env file dx dy x_offset y_offset word_size = Completed <->
  os_open env file <> -1 /\
  os_read env (os_open env file)
    (read_count word_size (narray dx dy x_offset y_offset)) <> ReadError /\
  os_close env (os_open env file) <> -1.
Proof.
  unfold path_of.
  destruct (Z.eqb_spec (os_open env file) (-1)) as [Hfd | Hfd].
  - split; [discriminate | tauto].
  - destruct (os_read env (os_open env file)
                (read_count word_size (narray dx dy x_offset y_offset)))
      as [ | data].
    + split; [discriminate | tauto].
    + destruct (Z.eqb_spec (os_close env (os_open env file)) (-1))
        as [Hrc | Hrc].
      * split; [discriminate | tauto].
      * split; [ | reflexivity]. intros _. repeat split; congruence.
Qed.

Lemma status_of_cases (q : path) :
  (status_of q = 1 <-> q = Completed) /\
  (status_of q = -1 <-> q <> Completed).
Proof. destruct q; simpl; repeat split; congruence. Qed.

(** C4.  The status is 1 exactly when open, read and close all succeed, and
    -1 exactly when one of them fails; there is no third value, so the
    caller cannot tell the three causes apart. *)
Theorem status_one_iff_io_succeeds :
  forall env file dx dy x_offset y_offset word_size m,
    let fd := os_open env file in
    let count := read_count word_size (narray dx dy x_offset y_offset) in
    let status :=
      fst (c_get_tile env file dx dy x_offset y_offset word_size m) in
    (status = 1 <->
       fd <> -1 /\ os_read env fd count <> ReadError /\ os_close env fd <> -1)
    /\
    (status = -1 <->
       fd = -1 \/ os_read env fd count = ReadError \/ os_close env fd = -1)
    /\ (status = 1 \/ status = -1).
Proof.
  intros env file dx dy x_offset y_offset word_size m fd count status.
  subst status fd count. rewrite status_of_path.
  pose proof (path_completed_iff env file dx dy x_offset y_offset word_size)
    as Hc.
  destruct (status_of_cases
              (path_of env file dx dy x_offset y_offset word_size))
    as [H1 Hm1].
  split; [rewrite H1; exact Hc | ].
  split.
  - rewrite Hm1, Hc.
    destruct (Z.eq_dec (os_open env file) (-1));
      destruct (Z.eq_dec (os_close env (os_open env file)) (-1));
      destruct (os_read env (os_open env file)
                  (read_count word_size (narray dx dy x_offset y_offset)));
      split; intros H; try tauto;
      try (right; left; reflexivity);
      try (intros [_ [Hr _]]; apply Hr; reflexivity);
      try (exfalso; apply H; repeat split; congruence);
      try (destruct H as [? | [? | ?]]; congruence).
  - destruct (path_of env file dx dy x_offset y_offset word_size);
      simpl; tauto.
Qed.

(** C5.  When the call returns -1, whatever the cause, it has stored
    nothing in the caller's array: the array is as it was, and none of the
    call's events is a store. *)
Theorem failure_leaves_tile_unwritten :
  forall env file dx dy x_offset y_offset word_size m,
    let r := c_get_tile env file dx dy x_offset y_offset word_size m in
    fst r = -1 ->
    tile (snd r) = tile m /\
    forallb (fun e => negb (is_tile_store e)) (events_of_call m (snd r))
      = true.
Proof.
  intros env file dx dy x_offset y_offset word_size m r Hstatus. subst r.
  rewrite status_of_path in Hstatus.
  apply (proj2 (status_of_cases _)) in Hstatus.
  destruct (failure_state env file dx dy x_offset y_offset word_size m Hstatus)
    as [Htile [_ [_ Hev]]].
  split; [exact Htile | ].
  rewrite forallb_forall in Hev. apply forallb_forall. intros e He.
  specialize (Hev e He). apply negb_true_iff in Hev.
  apply orb_false_iff in Hev. destruct Hev as [Hev _].
  rewrite Hev. reflexivity.
Qed.

Lemma failure_leaves_tile_unwritten_witness :
  fst (c_get_tile (regular_file "tile.bin" four_samples) "absent.bin"
         2 2 0 0 2 zeroed) = -1 /\
  tile (snd (c_get_tile (regular_file "tile.bin" four_samples) "absent.bin"
               2 2 0 0 2 zeroed)) = tile zeroed.
Proof.
  assert (H : fst (c_get_tile (regular_file "tile.bin" four_samples)
                     "absent.bin" 2 2 0 0 2 zeroed) = -1)
    by (vm_compute; reflexivity).
  split; [exact H | ].
  exact (proj1 (failure_leaves_tile_unwritten
                  (regular_file "tile.bin" four_samples) "absent.bin"
                  2 2 0 0 2 zeroed H)).
Defined.

(** C3.  On the three failure exits the function returns without calling
    [free]: at a path that does not exist the call returns -1 with the
    block it allocated still on the heap and no [free] among its events;
    the same holds when read fails and when close fails.  Only the
    successful call releases the block. *)
Theorem failure_exits_keep_buffer :
  let absent := c_get_tile (regular_file "tile.bin" four_samples)
                  "absent.bin" 2 2 0 0 2 zeroed in
  let unread := c_get_tile (unreadable_file "tile.bin")
                  "tile.bin" 2 2 0 0 2 zeroed in
  let unclosed := c_get_tile (unclosable_file "tile.bin" four_samples)
                    "tile.bin" 2 2 0 0 2 zeroed in
  let good := c_get_tile (regular_file "tile.bin" four_samples)
                "tile.bin" 2 2 0 0 2 zeroed in
  (fst absent = -1 /\ heap (snd absent) = [0%nat] /\
   existsb is_free (trace (snd absent)) = false) /\
  (fst unread = -1 /\ heap (snd unread) = [0%nat] /\
   existsb is_free (trace (snd unread)) = false) /\
  (fst unclosed = -1 /\ heap (snd unclosed) = [0%nat] /\
   existsb is_free (trace (snd unclosed)) = false) /\
  (fst good = 1 /\ heap (snd good) = [] /\
   existsb is_free (trace (snd good)) = true).
Proof. vm_compute. repeat split; reflexivity. Qed.

(** C10.  When read fails the call returns -1 with the descriptor it
    opened still open and no close among its events; in any call, a close
    event means the read before it succeeded. *)
Theorem read_failure_leaks_descriptor :
  forall env file dx dy x_offset y_offset word_size m,
    let fd := os_open env file in
    let count := read_count word_size (narray dx dy x_offset y_offset) in
    let r := c_get_tile env file dx dy x_offset y_offset word_size m in
    (fd <> -1 -> os_read env fd count = ReadError ->
       fst r = -1 /\
       In fd (fds (snd r)) /\
       existsb is_close (events_of_call m (snd r)) = false) /\
    (existsb is_close (events_of_call m (snd r)) = true ->
       fd <> -1 /\ exists data, os_read env fd count = ReadBytes data).
Proof.
  intros env file dx dy x_offset y_offset word_size m fd count r.
  subst fd count r. split.
  - intros Hfd Hread. on_path read_failure_path.
    cbn [fst snd fds trace].
    erewrite events_of_call_app by reflexivity.
    split; [reflexivity | ]. split; [left; reflexivity | reflexivity].
  - destruct (Z.eq_dec (os_open env file) (-1)) as [Hfd | Hfd].
    + on_path open_failure_path. cbn [snd].
      erewrite events_of_call_app by reflexivity. discriminate.
    + destruct (os_read env (os_open env file)
                  (read_count word_size (narray dx dy x_offset y_offset)))
        as [ | data] eqn:Hread.
      * on_path read_failure_path. cbn [snd].
        erewrite events_of_call_app by reflexivity. discriminate.
      * intros _. split; [exact Hfd | ]. exists data. reflexivity.
Qed.

Lemma read_failure_leaks_descriptor_witness :
  os_open (unreadable_file "tile.bin") "tile.bin" <> -1 /\
  os_read (unreadable_file "tile.bin")
    (os_open (unreadable_file "tile.bin") "tile.bin")
    (read_count 2 (narray 2 2 0 0)) = ReadError /\
  In 3 (fds (snd (c_get_tile (unreadable_file "tile.bin") "tile.bin"
                    2 2 0 0 2 zeroed))).
Proof.
  assert (Hfd : os_open (unreadable_file "tile.bin") "tile.bin" <> -1)
    by (vm_compute; discriminate).
  assert (Hread : os_read (unreadable_file "tile.bin")
                    (os_open (unreadable_file "tile.bin") "tile.bin")
                    (read_count 2 (narray 2 2 0 0)) = ReadError)
    by reflexivity.
  split; [exact Hfd | ]. split; [exact Hread | ].
  exact (proj1 (proj2
           (proj1 (read_failure_leaks_descriptor
                     (unreadable_file "tile.bin") "tile.bin" 2 2 0 0 2 zeroed)
                  Hfd Hread))).
Defined.

Lemma count_stores_app (a b : list event) :
  List.length (filter is_tile_store (a ++ b)) =
  (List.length (filter is_tile_store a)
   + List.length (filter is_tile_store b))%nat.
Proof. rewrite filter_app, length_app. reflexivity. Qed.

Lemma filter_all (A : Type) (f : A -> bool) (l : list A) :
  forallb f l = true -> filter f l = l.
Proof.
  induction l as [ | x l IH]; [reflexivity | ].
  simpl. intros H. apply andb_prop in H. destruct H as [Hx Hl].
  rewrite Hx, IH by exact Hl. reflexivity.
Qed.

(** ** The events of a successful call *)

Section Success.
Variables (pre mid post stores : list event).
Hypothesis pre_quiet : forallb (fun e => negb (is_tile_store e)) pre = true.
Hypothesis mid_quiet : forallb (fun e => negb (is_tile_store e)) mid = true.
Hypothesis post_quiet :
  forallb (fun e => negb (is_tile_store e)) post = true.
Hypothesis stores_only : forallb is_tile_store stores = true.

Lemma filter_none (l : list event) :
  forallb (fun e => negb (is_tile_store e)) l = true ->
  filter is_tile_store l = [].
Proof.
  induction l as [ | x l IH]; [reflexivity | ].
  simpl. intros H. apply andb_prop in H. destruct H as [Hx Hl].
  apply negb_true_iff in Hx. rewrite Hx. apply IH. exact Hl.
Qed.

Lemma replay_quiet (l : list event) (t : mem F32.float) :
  forallb (fun e => negb (is_tile_store e)) l = true -> replay l t = t.
Proof.
  induction l as [ | x l IH]; [reflexivity | ].
  simpl. intros H. apply andb_prop in H. destruct H as [Hx Hl].
  destruct x; try discriminate; apply IH; exact Hl.
Qed.

Lemma success_stores :
  filter is_tile_store (pre ++ mid ++ stores ++ post) = stores.
Proof.
  rewrite !filter_app.
  rewrite (filter_none pre), (filter_none mid), (filter_none post)
    by assumption.
  rewrite (filter_all _ _ _ stores_only). cbn [app]. apply app_nil_r.
Qed.

Lemma success_replay (t : mem F32.float) :
  replay (pre ++ mid ++ stores ++ post) t = replay stores t.
Proof.
  rewrite !replay_app. rewrite (replay_quiet pre) by assumption.
  rewrite (replay_quiet mid) by assumption.
  apply replay_quiet. assumption.
Qed.

Lemma success_in_store (pos : Z) (v : F32.float) :
  In (EvTileStore pos v) (pre ++ mid ++ stores ++ post) <->
  In (EvTileStore pos v) stores.
Proof.
  rewrite <- success_stores at 2. rewrite filter_In. tauto.
Qed.
End Success.



Lemma extent_exact dx dy x_offset y_offset :
  request_fits dx dy x_offset y_offset ->
  CInt.add dx x_offset = dx + x_offset /\
  CInt.add dy y_offset = dy + y_offset.
Proof.
  unfold request_fits, CInt.max_int. intros H.
  split; apply add_exact;
    unfold CInt.in_range, CInt.min_int, CInt.max_int; lia.
Qed.

Lemma remap_index_exact dx dy x_offset y_offset i j :
  request_fits dx dy x_offset y_offset ->
  0 <= i < dy + y_offset -> 0 <= j < dx + x_offset ->
  CInt.add (CInt.mul i dx) j = i * dx + j /\
  CInt.add (CInt.mul (CInt.add dx x_offset) j) i = (dx + x_offset) * j + i.
Proof.
  intros Hfit Hi Hj.
  destruct (extent_exact _ _ _ _ Hfit) as [Hx _]. rewrite Hx.
  unfold request_fits, CInt.max_int in Hfit.
  destruct Hfit as [Hdx [Hdy [Hxo [Hyo [Hw [Hh [Hread Hwrite]]]]]]].
  assert (H1 : 0 <= i * dx <= (dy + y_offset - 1) * dx).
  { split; [apply Z.mul_nonneg_nonneg | apply Z.mul_le_mono_nonneg_r]; lia. }
  assert (H2 : 0 <= (dx + x_offset) * j
               <= (dx + x_offset) * (dx + x_offset - 1)).
  { split; [apply Z.mul_nonneg_nonneg | apply Z.mul_le_mono_nonneg_l]; lia. }
  split.
  - rewrite (mul_exact i dx)
      by (unfold CInt.in_range, CInt.min_int, CInt.max_int; lia).
    apply add_exact. unfold CInt.in_range, CInt.min_int, CInt.max_int. lia.
  - rewrite (mul_exact (dx + x_offset) j)
      by (unfold CInt.in_range, CInt.min_int, CInt.max_int; lia).
    apply add_exact. unfold CInt.in_range, CInt.min_int, CInt.max_int. lia.
Qed.

(** C1.  A call that reaches the remapping step stores, for every [i] in
    [0, dy+y_offset) and [j] in [0, dx+x_offset), the sample at flat
    position [(dx+x_offset)*j + i] at output position [i*dx + j], and
    stores nothing else; the caller's array is the result of those stores.
    This holds of every such call in [int] arithmetic, and in plain
    arithmetic when the subscripts fit.  The loops run over the padded
    extent, so with a non-zero offset some store lands at a position at or
    past [dx*dy], outside the array. *)
Theorem remap_writes_padded_extent :
  forall env file dx dy x_offset y_offset word_size m data,
    let fd := os_open env file in
    let count := read_count word_size (narray dx dy x_offset y_offset) in
    let r := c_get_tile env file dx dy x_offset y_offset word_size m in
    let samples := tile_1d (snd r) in
    let events := events_of_call m (snd r) in
    fd <> -1 ->
    os_read env fd count = ReadBytes data ->
    os_close env fd <> -1 ->
    (forall pos v, In (EvTileStore pos v) events <->
       exists i j,
         0 <= i < CInt.add dy y_offset /\ 0 <= j < CInt.add dx x_offset /\
         pos = CInt.add (CInt.mul i dx) j /\
         v = samples (CInt.add (CInt.mul (CInt.add dx x_offset) j) i)) /\
    tile (snd r) = replay events (tile m) /\
    (request_fits dx dy x_offset y_offset ->
       (forall i j, 0 <= i < dy + y_offset -> 0 <= j < dx + x_offset ->
          In (EvTileStore (i * dx + j) (samples ((dx + x_offset) * j + i)))
             events) /\
       (forall pos v, In (EvTileStore pos v) events ->
          exists i j, 0 <= i < dy + y_offset /\ 0 <= j < dx + x_offset /\
            pos = i * dx + j /\ v = samples ((dx + x_offset) * j + i)) /\
       (x_offset <> 0 \/ y_offset <> 0 ->
          exists pos v, In (EvTileStore pos v) events /\ dx * dy <= pos)).
Proof.
  intros env file dx dy x_offset y_offset word_size m data fd count r
         samples events Hfd Hread Hrc.
  subst fd count r samples events.
  on_path (success_path _ _ _ _ _ _ _ _ data).
  erewrite events_of_call_app by reflexivity.
  set (samples := decode_mem word_size _ _ _ _).
  set (events := _ ++ _ ++ _ ++ _).
  assert (Hin : forall pos v, In (EvTileStore pos v) events <->
            exists i j,
              0 <= i < CInt.add dy y_offset /\
              0 <= j < CInt.add dx x_offset /\
              pos = CInt.add (CInt.mul i dx) j /\
              v = samples (CInt.add (CInt.mul (CInt.add dx x_offset) j) i)).
  { intros pos v. subst events.
    rewrite success_in_store;
      try reflexivity; try apply remap_rows_only_stores.
    rewrite in_remap_rows. split.
    - intros [j [i [Hj [Hi He]]]]. injection He as -> ->.
      exists i, j. repeat split; lia.
    - intros [i [j [Hi [Hj [-> ->]]]]].
      exists j, i. repeat split; lia. }
  split; [exact Hin | ].
  split.
  { subst events. symmetry. apply success_replay; reflexivity. }
  intros Hfit.
  destruct (extent_exact _ _ _ _ Hfit) as [Hx Hy].
  assert (Hpos : 0 < dx + x_offset /\ 0 < dy + y_offset)
    by (unfold request_fits in Hfit; lia).
  split.
  { intros i j Hi Hj. apply Hin. exists i, j.
    destruct (remap_index_exact _ _ _ _ i j Hfit Hi Hj) as [-> ->].
    rewrite Hx, Hy. repeat split; lia. }
  split.
  { intros pos v Hs. apply Hin in Hs.
    destruct Hs as [i [j [Hi [Hj [-> ->]]]]].
    rewrite Hx in Hj. rewrite Hy in Hi.
    destruct (remap_index_exact _ _ _ _ i j Hfit Hi Hj) as [-> ->].
    exists i, j. repeat split; lia. }
  intros Hoff.
  exists ((dy + y_offset - 1) * dx + (dx + x_offset - 1)).
  eexists. split.
  - apply Hin. exists (dy + y_offset - 1), (dx + x_offset - 1).
    assert (Hi : 0 <= dy + y_offset - 1 < dy + y_offset) by lia.
    assert (Hj : 0 <= dx + x_offset - 1 < dx + x_offset) by lia.
    destruct (remap_index_exact _ _ _ _ _ _ Hfit Hi Hj) as [-> _].
    rewrite Hx, Hy.
    split; [exact Hi | ]. split; [exact Hj | ]. split; reflexivity.
  - unfold request_fits in Hfit.
    assert (Hy1 : y_offset * 1 <= y_offset * dx)
      by (apply Z.mul_le_mono_nonneg_l; lia).
    replace ((dy + y_offset - 1) * dx + (dx + x_offset - 1))
      with (dx * dy + (y_offset * dx + x_offset - 1)) by ring.
    lia.
Qed.

Lemma remap_writes_padded_extent_witness :
  request_fits 1 1 0 1 /\
  exists pos v,
    In (EvTileStore pos v)
       (events_of_call zeroed
          (snd (c_get_tile (regular_file "tile.bin" four_samples) "tile.bin"
                  1 1 0 1 2 zeroed))) /\
    1 * 1 <= pos.
Proof.
  assert (Hfd : os_open (regular_file "tile.bin" four_samples) "tile.bin"
                <> -1) by (vm_compute; discriminate).
  assert (Hread :
            os_read (regular_file "tile.bin" four_samples)
              (os_open (regular_file "tile.bin" four_samples) "tile.bin")
              (read_count 2 (narray 1 1 0 1))
            = ReadBytes four_samples) by reflexivity.
  assert (Hrc : os_close (regular_file "tile.bin" four_samples)
                  (os_open (regular_file "tile.bin" four_samples) "tile.bin")
                <> -1) by (vm_compute; discriminate).
  assert (Hfit : request_fits 1 1 0 1)
    by (unfold request_fits, CInt.max_int; lia).
  assert (Hoff : 0 <> 0 \/ 1 <> 0) by (right; lia).
  split; [exact Hfit | ].
  exact (proj2 (proj2 (proj2 (proj2
           (remap_writes_padded_extent
              (regular_file "tile.bin" four_samples) "tile.bin"
              1 1 0 1 2 zeroed four_samples Hfd Hread Hrc)) Hfit)) Hoff).
Defined.

(** ** What the output depends on *)

Lemma replay_ext (evs : list event) (t1 t2 : mem F32.float) :
  (forall p, t1 p = t2 p) -> forall p, replay evs t1 p = replay evs t2 p.
Proof.
  revert t1 t2. induction evs as [ | e evs IH]; intros t1 t2 H p.
  - apply H.
  - destruct e; cbn [replay]; try (apply IH; exact H).
    apply IH. intros q. unfold mem_store. rewrite H. reflexivity.
Qed.

Lemma remap_rows_ext dx x_offset (t1 t2 : mem F32.float) rows n j0 :
  (forall j i, j0 <= j < j0 + Z.of_nat n -> 0 <= i < Z.of_nat rows ->
     t1 (CInt.add (CInt.mul (CInt.add dx x_offset) j) i) =
     t2 (CInt.add (CInt.mul (CInt.add dx x_offset) j) i)) ->
  remap_rows dx x_offset t1 rows n j0 = remap_rows dx x_offset t2 rows n j0.
Proof.
  assert (Hrow : forall j k i0,
            (forall i, i0 <= i < i0 + Z.of_nat k ->
               t1 (CInt.add (CInt.mul (CInt.add dx x_offset) j) i) =
               t2 (CInt.add (CInt.mul (CInt.add dx x_offset) j) i)) ->
            remap_row dx x_offset t1 j k i0 = remap_row dx x_offset t2 j k i0).
  { intros j k. induction k as [ | k IH]; intros i0 H; [reflexivity | ].
    cbn [remap_row]. rewrite H by lia. f_equal. apply IH.
    intros i Hi. apply H. lia. }
  revert j0. induction n as [ | n IH]; intros j0 H; [reflexivity | ].
  cbn [remap_rows]. f_equal.
  - apply Hrow. intros i Hi. apply H; lia.
  - apply IH. intros j i Hj Hi. apply H; lia.
Qed.

Section Decoded.
Variables dx dy x_offset y_offset : Z.
Hypothesis Hdx : 0 < dx.
Hypothesis Hdy : 0 < dy.
Hypothesis Hxo : 0 <= x_offset.
Hypothesis Hyo : 0 <= y_offset.
Hypothesis Htall : dx + x_offset <= dy + y_offset.
Hypothesis Hsize :
  2 * ((dx + x_offset) * (dy + y_offset)) <= CInt.max_int.

Lemma extent_bounds :
  dx + x_offset <= (dx + x_offset) * (dy + y_offset) /\
  dy + y_offset <= (dx + x_offset) * (dy + y_offset).
Proof.
  split.
  - rewrite <- (Z.mul_1_r (dx + x_offset)) at 1.
    apply Z.mul_le_mono_nonneg_l; lia.
  - rewrite <- (Z.mul_1_l (dy + y_offset)) at 1.
    apply Z.mul_le_mono_nonneg_r; lia.
Qed.

Lemma sample_index_bound (i j : Z) :
  0 <= i < dy + y_offset -> 0 <= j < dx + x_offset ->
  0 <= (dx + x_offset) * j + i < (dx + x_offset) * (dy + y_offset).
Proof.
  intros Hi Hj.
  assert (H1 : 0 <= (dx + x_offset) * j
               <= (dx + x_offset) * (dx + x_offset - 1)).
  { split; [apply Z.mul_nonneg_nonneg | apply Z.mul_le_mono_nonneg_l];
      lia. }
  assert (H2 : (dx + x_offset) * (dx + x_offset - 1)
               <= (dy + y_offset) * (dx + x_offset - 1))
    by (apply Z.mul_le_mono_nonneg_r; lia).
  assert (H3 : (dy + y_offset) * (dx + x_offset - 1) + (dy + y_offset)
               = (dx + x_offset) * (dy + y_offset)) by ring.
  lia.
Qed.

Lemma tall_request_fits : request_fits dx dy x_offset y_offset.
Proof.
  pose proof extent_bounds as [Hb1 Hb2].
  assert (H0 : 0 <= 0 < dy + y_offset) by lia.
  assert (Hi : 0 <= dy + y_offset - 1 < dy + y_offset) by lia.
  assert (Hj : 0 <= dx + x_offset - 1 < dx + x_offset) by lia.
  pose proof (sample_index_bound _ _ Hi Hj) as Hr.
  assert (Hw : (dy + y_offset - 1) * dx
               <= (dy + y_offset - 1) * (dx + x_offset))
    by (apply Z.mul_le_mono_nonneg_l; lia).
  assert (He : (dy + y_offset - 1) * (dx + x_offset) + (dx + x_offset)
               = (dx + x_offset) * (dy + y_offset)) by ring.
  unfold request_fits. unfold CInt.max_int in *.
  repeat split; lia.
Qed.

Lemma narray_exact :
  narray dx dy x_offset y_offset = (dx + x_offset) * (dy + y_offset).
Proof.
  unfold narray.
  destruct (extent_exact _ _ _ _ tall_request_fits) as [-> ->].
  apply mul_exact. pose proof extent_bounds as [Hb1 Hb2].
  unfold CInt.in_range, CInt.min_int, CInt.max_int in *. lia.
Qed.

Lemma read_count_exact :
  read_count 2 (narray dx dy x_offset y_offset)
  = 2 * ((dx + x_offset) * (dy + y_offset)).
Proof.
  unfold read_count. rewrite narray_exact.
  pose proof extent_bounds as [Hb1 Hb2].
  rewrite mul_exact
    by (unfold CInt.in_range, CInt.min_int, CInt.max_int in *; lia).
  apply size_wrap_small. unfold CInt.max_int in *. lia.
Qed.

(** A sample the remapping reads is a function of the file alone. *)
Lemma decoded_sample_from_file (data : list byte) (b : mem byte)
    (t : mem F32.float) (i j : Z) :
  read_count 2 (narray dx dy x_offset y_offset)
    <= Z.of_nat (List.length data) ->
  0 <= i < dy + y_offset -> 0 <= j < dx + x_offset ->
  decode_mem 2 (Z.to_nat (narray dx dy x_offset y_offset)) 0
    (mem_write_bytes b 0
       (transfer (read_count 2 (narray dx dy x_offset y_offset)) data))
    t (CInt.add (CInt.mul (CInt.add dx x_offset) j) i)
  = F32.of_int
      (sample_value 2
         (nth (Z.to_nat (2 * ((dx + x_offset) * j + i))) data Byte.x00)
         (nth (Z.to_nat (2 * ((dx + x_offset) * j + i) + 1)) data
            Byte.x00)).
Proof.
  intros Hfull Hi Hj.
  destruct (remap_index_exact _ _ _ _ i j tall_request_fits Hi Hj)
    as [_ ->].
  pose proof (sample_index_bound _ _ Hi Hj) as Hk.
  set (k := (dx + x_offset) * j + i) in *.
  rewrite read_count_exact in *. rewrite narray_exact.
  set (n := (dx + x_offset) * (dy + y_offset)) in *.
  assert (Hlen : Z.of_nat (List.length (transfer (2 * n) data)) = 2 * n).
  { unfold transfer. rewrite length_firstn.
    unfold CSize.ssize_max, CInt.max_int in *. lia. }
  assert (Hnth : forall q, 0 <= q < 2 * n ->
            nth (Z.to_nat q) (transfer (2 * n) data) Byte.x00
            = nth (Z.to_nat q) data Byte.x00).
  { intros q Hq. unfold transfer. rewrite nth_firstn.
    destruct (Nat.ltb_spec (Z.to_nat q)
                (Z.to_nat (Z.min (2 * n) CSize.ssize_max)))
      as [Hlt | Hge]; [reflexivity | ].
    unfold CSize.ssize_max, CInt.max_int in *. lia. }
  rewrite decode_mem_spec.
  destruct (Z.leb_spec 0 k); [ | lia].
  destruct (Z.ltb_spec k (0 + Z.of_nat (Z.to_nat n))); [ | lia].
  cbn [andb].
  destruct (decode_index_exact n k) as [-> ->]; [lia | lia | ].
  rewrite !mem_write_bytes_spec, Hlen.
  destruct (Z.leb_spec 0 (2 * k)); [ | lia].
  destruct (Z.ltb_spec (2 * k) (0 + 2 * n)); [ | lia].
  destruct (Z.leb_spec 0 (2 * k + 1)); [ | lia].
  destruct (Z.ltb_spec (2 * k + 1) (0 + 2 * n)); [ | lia].
  cbn [andb]. rewrite !Z.sub_0_r, !Hnth by lia. reflexivity.
Qed.
End Decoded.

(** C8, as stated, fails: two calls with the same arguments, the same
    caller's array and the same file both return 1 and leave different
    values in the array, because with [word_size] 1 the output is whatever
    the stack array held. *)
Lemma c_get_tile_output_depends_on_stack :
  tile (stack_holding (S754_zero false)) = tile (stack_holding (F32.of_int 7))
  /\ buf (stack_holding (S754_zero false))
     = buf (stack_holding (F32.of_int 7))
  /\ fst (run_on_stack (S754_zero false)) = 1
  /\ fst (run_on_stack (F32.of_int 7)) = 1
  /\ tile (snd (run_on_stack (S754_zero false))) 0
     <> tile (snd (run_on_stack (F32.of_int 7))) 0.
Proof.
  split; [reflexivity | ]. split; [reflexivity | ].
  split; [vm_compute; reflexivity | ]. split; [vm_compute; reflexivity | ].
  vm_compute. discriminate.
Qed.

(** With 16-bit words, a file shorter than the extent lets the content of
    the fresh heap block through to the caller's array. *)
Example short_file_shows_heap_garbage :
  tile (snd (c_get_tile (regular_file "tile.bin" []) "tile.bin" 1 1 0 0 2
               (start (fun _ => Byte.x00) (fun _ => S754_zero false)
                      (fun _ => S754_zero false)))) 0
  <> tile (snd (c_get_tile (regular_file "tile.bin" []) "tile.bin" 1 1 0 0 2
                  (start (fun _ => Byte.x01) (fun _ => S754_zero false)
                         (fun _ => S754_zero false)))) 0.
Proof. vm_compute. discriminate. Qed.

(** * Further properties of [c_get_tile] *)

(** ** Resources and diagnostics *)

Lemma filter_disjoint (f g : event -> bool) (l : list event) :
  (forall e, g e = true -> f e = false) ->
  forallb g l = true -> filter f l = [].
Proof.
  intros Hfg. induction l as [ | x l IH]; [reflexivity | ].
  simpl. intros H. apply andb_prop in H. destruct H as [Hx Hl].
  rewrite (Hfg x Hx). apply IH. exact Hl.
Qed.

Lemma stores_not_free (e : event) : is_tile_store e = true -> is_free e = false.
Proof. destruct e; simpl; congruence. Qed.

Lemma stores_not_malloc (e : event) :
  is_tile_store e = true -> is_malloc e = false.
Proof. destruct e; simpl; congruence. Qed.

Lemma stores_not_diagnostic (e : event) :
  is_tile_store e = true -> is_diagnostic e = false.
Proof. destruct e; simpl; congruence. Qed.

(** X1.  A successful call gives back what it took: when the block
    [malloc] hands out is fresh and the descriptor [open] returns was not
    already open, the heap and the set of open descriptors end as they
    began, with exactly one [malloc] and one [free], of the same block. *)
Theorem success_restores_resources :
  forall env file dx dy x_offset y_offset word_size m data,
    let fd := os_open env file in
    let n := narray dx dy x_offset y_offset in
    let r := c_get_tile env file dx dy x_offset y_offset word_size m in
    fd <> -1 ->
    os_read env fd (read_count word_size n) = ReadBytes data ->
    os_close env fd <> -1 ->
    ~ In (next_block m) (heap m) ->
    ~ In fd (fds m) ->
    heap (snd r) = heap m /\
    fds (snd r) = fds m /\
    filter is_malloc (events_of_call m (snd r))
      = [EvMalloc (buf_size word_size n) (next_block m)] /\
    filter is_free (events_of_call m (snd r)) = [EvFree (next_block m)].
Proof.
  intros env file dx dy x_offset y_offset word_size m data fd n r
         Hfd Hread Hrc Hblock Hdesc.
  subst fd n r. on_path (success_path _ _ _ _ _ _ _ _ data).
  erewrite events_of_call_app by reflexivity.
  split; [apply notin_remove; exact Hblock | ].
  split; [apply notin_remove; exact Hdesc | ].
  rewrite !filter_app.
  rewrite (filter_disjoint is_malloc is_tile_store _ stores_not_malloc
             (remap_rows_only_stores _ _ _ _ _ _)).
  rewrite (filter_disjoint is_free is_tile_store _ stores_not_free
             (remap_rows_only_stores _ _ _ _ _ _)).
  split; reflexivity.
Qed.

Lemma success_restores_resources_witness :
  ~ In (next_block zeroed) (heap zeroed) /\
  heap (snd (c_get_tile (regular_file "tile.bin" four_samples) "tile.bin"
               2 2 0 0 2 zeroed)) = heap zeroed /\
  fds (snd (c_get_tile (regular_file "tile.bin" four_samples) "tile.bin"
              2 2 0 0 2 zeroed)) = fds zeroed.
Proof.
  assert (Hfd : os_open (regular_file "tile.bin" four_samples) "tile.bin"
                <> -1) by (vm_compute; discriminate).
  assert (Hread :
            os_read (regular_file "tile.bin" four_samples)
              (os_open (regular_file "tile.bin" four_samples) "tile.bin")
              (read_count 2 (narray 2 2 0 0))
            = ReadBytes four_samples) by reflexivity.
  assert (Hrc : os_close (regular_file "tile.bin" four_samples)
                  (os_open (regular_file "tile.bin" four_samples) "tile.bin")
                <> -1) by (vm_compute; discriminate).
  assert (Hblock : ~ In (next_block zeroed) (heap zeroed))
    by (simpl; tauto).
  assert (Hdesc : ~ In (os_open (regular_file "tile.bin" four_samples)
                          "tile.bin") (fds zeroed)).
  { vm_compute. intros [H | [H | [H | H]]]; try discriminate H. exact H. }
  pose proof (success_restores_resources
                (regular_file "tile.bin" four_samples) "tile.bin"
                2 2 0 0 2 zeroed four_samples Hfd Hread Hrc Hblock Hdesc)
    as H.
  split; [exact Hblock | ].
  split; [exact (proj1 H) | exact (proj1 (proj2 H))].
Defined.

(** X2.  The diagnostics a call prints name its exit: "OPEN ERROR: "
    followed by the file name when open fails, "READ ERROR: " when read
    fails, "CLOSE ERROR: " when close fails, and nothing at all when the
    call succeeds. *)
Theorem diagnostics_name_the_exit :
  forall env file dx dy x_offset y_offset word_size m,
    filter is_diagnostic
      (events_of_call m
         (snd (c_get_tile env file dx dy x_offset y_offset word_size m)))
    = diagnostics_of (path_of env file dx dy x_offset y_offset word_size)
        file.
Proof.
  intros env file dx dy x_offset y_offset word_size m. unfold path_of.
  destruct (Z.eqb_spec (os_open env file) (-1)) as [Hfd | Hfd].
  - on_path open_failure_path.
    erewrite events_of_call_app by reflexivity. reflexivity.
  - destruct (os_read env (os_open env file)
                (read_count word_size (narray dx dy x_offset y_offset)))
      as [ | data] eqn:Hread.
    + on_path read_failure_path.
      erewrite events_of_call_app by reflexivity. reflexivity.
    + destruct (Z.eqb_spec (os_close env (os_open env file)) (-1))
        as [Hrc | Hrc].
      * on_path (close_failure_path _ _ _ _ _ _ _ _ data).
        erewrite events_of_call_app by reflexivity. reflexivity.
      * on_path (success_path _ _ _ _ _ _ _ _ data).
        erewrite events_of_call_app by reflexivity.
        rewrite !filter_app.
        rewrite (filter_disjoint is_diagnostic is_tile_store _
                   stores_not_diagnostic
                   (remap_rows_only_stores _ _ _ _ _ _)).
        reflexivity.
Qed.

(** X3.  When open fails nothing else is attempted: the call makes no
    read and no close, opens no descriptor, and leaves the buffer, the
    sample array and the caller's array as they were. *)
Theorem open_failure_attempts_nothing :
  forall env file dx dy x_offset y_offset word_size m,
    let r := c_get_tile env file dx dy x_offset y_offset word_size m in
    os_open env file = -1 ->
    fst r = -1 /\
    existsb (fun e => is_read e || is_close e) (events_of_call m (snd r))
      = false /\
    fds (snd r) = fds m /\
    buf (snd r) = buf m /\
    tile_1d (snd r) = tile_1d m /\
    tile (snd r) = tile m.
Proof.
  intros env file dx dy x_offset y_offset word_size m r Hfd. subst r.
  on_path open_failure_path.
  erewrite events_of_call_app by reflexivity.
  repeat split.
Qed.

Lemma open_failure_attempts_nothing_witness :
  os_open (regular_file "tile.bin" four_samples) "absent.bin" = -1 /\
  fds (snd (c_get_tile (regular_file "tile.bin" four_samples) "absent.bin"
              2 2 0 0 2 zeroed)) = fds zeroed.
Proof.
  assert (Hfd : os_open (regular_file "tile.bin" four_samples) "absent.bin"
                = -1) by reflexivity.
  split; [exact Hfd | ].
  exact (proj1 (proj2 (proj2
           (open_failure_attempts_nothing
              (regular_file "tile.bin" four_samples) "absent.bin"
              2 2 0 0 2 zeroed Hfd)))).
Defined.

(** ** The read and the allocation *)

Lemma wrap_bounds (z : Z) : CInt.min_int <= CInt.wrap z <= CInt.max_int.
Proof.
  unfold CInt.wrap, CInt.min_int, CInt.max_int.
  pose proof (Z.mod_pos_bound (z + 2 ^ 31) (2 ^ 32) eq_refl). lia.
Qed.

Lemma transfer_length (count : Z) (data : list byte) :
  0 <= count ->
  Z.of_nat (List.length (transfer count data)) <= count.
Proof.
  intros Hc. unfold transfer.
  pose proof (firstn_le_length (Z.to_nat (Z.min count CSize.ssize_max)) data).
  lia.
Qed.

(** The buffer after a call is the buffer before it, or that with the
    bytes of the read copied to its start. *)
Lemma buf_after_call env file dx dy x_offset y_offset word_size m :
  let r := c_get_tile env file dx dy x_offset y_offset word_size m in
  buf (snd r) = buf m \/
  exists data,
    buf (snd r) =
    mem_write_bytes (buf m) 0
      (transfer (read_count word_size (narray dx dy x_offset y_offset)) data).
Proof.
  cbv zeta.
  destruct (Z.eq_dec (os_open env file) (-1)) as [Hfd | Hfd].
  - on_path open_failure_path. left. reflexivity.
  - destruct (os_read env (os_open env file)
                (read_count word_size (narray dx dy x_offset y_offset)))
      as [ | data] eqn:Hread.
    + on_path read_failure_path. left. reflexivity.
    + right. exists data.
      destruct (Z.eq_dec (os_close env (os_open env file)) (-1))
        as [Hrc | Hrc].
      * on_path (close_failure_path _ _ _ _ _ _ _ _ data). reflexivity.
      * on_path (success_path _ _ _ _ _ _ _ _ data). reflexivity.
Qed.

(** X4.  When the byte count fits in [int], the count handed to [read] is
    the size handed to [malloc], namely [word_size * narray], and the call
    changes no byte outside that block: every index below 0 or at or past
    the allocation size keeps its content, on every path. *)
Theorem read_stays_within_allocation :
  forall env file dx dy x_offset y_offset word_size m,
    let n := narray dx dy x_offset y_offset in
    let r := c_get_tile env file dx dy x_offset y_offset word_size m in
    0 <= word_size <= CInt.max_int ->
    0 <= n ->
    word_size * n <= CInt.max_int ->
    read_count word_size n = word_size * n /\
    buf_size word_size n = word_size * n /\
    (forall k, k < 0 \/ buf_size word_size n <= k ->
       buf (snd r) k = buf m k).
Proof.
  intros env file dx dy x_offset y_offset word_size m n r Hws Hn Hfit.
  assert (Hnmax : n <= CInt.max_int) by apply wrap_bounds.
  assert (Hprod : 0 <= word_size * n) by (apply Z.mul_nonneg_nonneg; lia).
  assert (Hcount : read_count word_size n = word_size * n).
  { unfold read_count. rewrite mul_exact
      by (unfold CInt.in_range, CInt.min_int, CInt.max_int in *; lia).
    apply size_wrap_small. unfold CInt.max_int in *. lia. }
  assert (Hsize : buf_size word_size n = word_size * n).
  { unfold buf_size, CSize.mul. unfold CInt.max_int in *.
    rewrite (size_wrap_small word_size) by lia.
    rewrite (size_wrap_small n) by lia.
    rewrite Z.mul_1_l. rewrite (size_wrap_small word_size) by lia.
    apply size_wrap_small. lia. }
  split; [exact Hcount | ]. split; [exact Hsize | ].
  intros k Hk. subst r.
  destruct (buf_after_call env file dx dy x_offset y_offset word_size m)
    as [-> | [data ->]]; [reflexivity | ].
  fold n. rewrite mem_write_bytes_spec.
  pose proof (transfer_length (read_count word_size n) data) as Hlen.
  rewrite Hcount in *. rewrite Hsize in Hk. specialize (Hlen Hprod).
  destruct (Z.leb_spec 0 k) as [H0 | H0]; [ | reflexivity].
  destruct (Z.ltb_spec k
              (0 + Z.of_nat
                     (List.length (transfer (word_size * n) data))))
    as [H1 | H1]; [lia | reflexivity].
Qed.

Lemma read_stays_within_allocation_witness :
  0 <= 2 <= CInt.max_int /\ 0 <= narray 2 2 0 0 /\
  2 * narray 2 2 0 0 <= CInt.max_int /\
  buf_size 2 (narray 2 2 0 0) = 2 * narray 2 2 0 0.
Proof.
  assert (Hws : 0 <= 2 <= CInt.max_int) by (unfold CInt.max_int; lia).
  assert (Hn : 0 <= narray 2 2 0 0) by (vm_compute; discriminate).
  assert (Hfit : 2 * narray 2 2 0 0 <= CInt.max_int)
    by (vm_compute; discriminate).
  split; [exact Hws | ]. split; [exact Hn | ]. split; [exact Hfit | ].
  exact (proj1 (proj2
           (read_stays_within_allocation
              (regular_file "tile.bin" four_samples) "tile.bin"
              2 2 0 0 2 zeroed Hws Hn Hfit))).
Defined.

(** ** Decoding is a bijection *)

Lemma u8_inj (b c : byte) : u8 b = u8 c -> b = c.
Proof.
  unfold u8. intros H. apply N2Z.inj in H.
  pose proof (Byte.of_to_N b) as Hb. pose proof (Byte.of_to_N c) as Hc.
  rewrite H in Hb. congruence.
Qed.

Lemma u8_onto (z : Z) : 0 <= z <= 255 -> exists b : byte, u8 b = z.
Proof.
  intros Hz. destruct (Byte.of_N (Z.to_N z)) as [b | ] eqn:Hb.
  - exists b. unfold u8. apply Byte.to_of_N in Hb. rewrite Hb.
    apply Z2N.id. lia.
  - apply Byte.of_N_None_iff in Hb. lia.
Qed.

(** X5.  Every 16-bit integer is the decoding of a byte pair, the one that
    holds its two's-complement representation high byte first: decoding
    undoes the big-endian encoding of the file format. *)
Theorem sample_value_inverts_encoding :
  forall v : Z,
    -32768 <= v <= 32767 ->
    exists b0 b1 : byte,
      u8 b0 = (v mod 2 ^ 16) / 2 ^ 8 /\
      u8 b1 = v mod 2 ^ 8 /\
      sample_value 2 b0 b1 = v.
Proof.
  intros v Hv.
  change (2 ^ 16) with 65536. change (2 ^ 8) with 256.
  pose proof (Z.mod_pos_bound v 65536 eq_refl) as Hw.
  pose proof (Z.mod_pos_bound (v mod 65536) 256 eq_refl) as Hlo.
  pose proof (Z.div_mod (v mod 65536) 256) as Hdm.
  assert (Hhi : 0 <= (v mod 65536) / 256 <= 255).
  { split; [apply Z.div_pos; lia | ].
    apply Z.lt_succ_r. apply Z.div_lt_upper_bound; lia. }
  assert (Hlow : (v mod 65536) mod 256 = v mod 256).
  { pose proof (Z.div_mod v 65536) as Hv16.
    replace (v mod 256)
      with ((v mod 65536 + 256 * (v / 65536) * 256) mod 256)
      by (f_equal; lia).
    rewrite Z.mod_add by lia. reflexivity. }
  destruct (u8_onto ((v mod 65536) / 256) Hhi) as [b0 H0].
  assert (Hb1 : 0 <= v mod 256 <= 255)
    by (pose proof (Z.mod_pos_bound v 256 eq_refl); lia).
  destruct (u8_onto (v mod 256) Hb1) as [b1 H1].
  exists b0, b1. split; [exact H0 | ]. split; [exact H1 | ].
  rewrite sample_value_arith, H0, H1.
  destruct (Z.leb_spec 0 v) as [Hpos | Hneg].
  - rewrite (Z.mod_small v 65536) in * by lia.
    destruct (Z.leb_spec 128 (v / 256)); lia.
  - assert (Hm : v mod 65536 = v + 65536).
    { symmetry. apply (Z.mod_unique v 65536 (-1)); lia. }
    rewrite Hm in *.
    destruct (Z.leb_spec 128 ((v + 65536) / 256)); lia.
Qed.

Lemma sample_value_inverts_encoding_witness :
  -32768 <= -100 <= 32767 /\
  exists b0 b1 : byte,
    u8 b0 = (-100 mod 2 ^ 16) / 2 ^ 8 /\
    u8 b1 = -100 mod 2 ^ 8 /\
    sample_value 2 b0 b1 = -100.
Proof.
  assert (Hv : -32768 <= -100 <= 32767) by lia.
  split; [exact Hv | ].
  exact (sample_value_inverts_encoding (-100) Hv).
Defined.

(** X6.  Decoding loses nothing: two byte pairs that decode to the same
    integer, or to the same float, are the same pair; and the decoded
    integer is congruent modulo 2^16 to the unsigned big-endian word. *)
Theorem sample_value_injective :
  forall b0 b1 c0 c1 : byte,
    (sample_value 2 b0 b1 mod 2 ^ 16 = u8 b0 * 2 ^ 8 + u8 b1) /\
    (sample_value 2 b0 b1 = sample_value 2 c0 c1 -> b0 = c0 /\ b1 = c1) /\
    (F32.of_int (sample_value 2 b0 b1) = F32.of_int (sample_value 2 c0 c1) ->
     b0 = c0 /\ b1 = c1).
Proof.
  intros b0 b1 c0 c1.
  pose proof (u8_range b0) as Hb0. pose proof (u8_range b1) as Hb1.
  pose proof (u8_range c0) as Hc0. pose proof (u8_range c1) as Hc1.
  assert (Hinj : sample_value 2 b0 b1 = sample_value 2 c0 c1 ->
                 b0 = c0 /\ b1 = c1).
  { rewrite !sample_value_arith. intros H.
    assert (u8 b0 = u8 c0 /\ u8 b1 = u8 c1) as [H0 H1].
    { destruct (Z.leb_spec 128 (u8 b0)); destruct (Z.leb_spec 128 (u8 c0));
        lia. }
    split; apply u8_inj; assumption. }
  split.
  { rewrite sample_value_arith.
    change (2 ^ 16) with 65536. change (2 ^ 8) with 256.
    destruct (Z.leb_spec 128 (u8 b0)).
    - symmetry. apply (Z.mod_unique _ 65536 (-1)); lia.
    - rewrite Z.sub_0_r. apply Z.mod_small. lia. }
  split; [exact Hinj | ].
  intros Hf. apply Hinj.
  destruct (int16_exact _ (sample_value_range b0 b1)) as [_ Hb].
  destruct (int16_exact _ (sample_value_range c0 c1)) as [_ Hc].
  rewrite Hf in Hb. congruence.
Qed.

(** ** The caller's array after the remapping *)

Lemma replay_untouched (evs : list event) (t : mem F32.float) (p : Z) :
  (forall v, ~ In (EvTileStore p v) evs) -> replay evs t p = t p.
Proof.
  revert t. induction evs as [ | e evs IH]; intros t H; [reflexivity | ].
  assert (Hrest : forall v, ~ In (EvTileStore p v) evs)
    by (intros v Hv; apply (H v); right; exact Hv).
  destruct e; cbn [replay]; try (apply IH; exact Hrest).
  rewrite IH by exact Hrest. unfold mem_store.
  destruct (Z.eqb_spec p pos) as [-> | Hne]; [ | reflexivity].
  exfalso. apply (H v). left. reflexivity.
Qed.

(** The content of a position that was stored to is one of the values
    stored there. *)
Lemma replay_stored (evs : list event) (t : mem F32.float) (p : Z) :
  (exists v, In (EvTileStore p v) evs) ->
  exists v, In (EvTileStore p v) evs /\ replay evs t p = v.
Proof.
  revert t. induction evs as [ | e evs IH]; intros t [v Hv].
  - destruct Hv.
  - destruct (in_dec Z.eq_dec p
                (map (fun e => match e with EvTileStore q _ => q | _ => p - 1 end)
                     evs)) as [Hlater | Hnone].
    + apply in_map_iff in Hlater. destruct Hlater as [e' [Hq He']].
      destruct e'; try lia. subst pos.
      destruct (IH (match e with
                    | EvTileStore q w => mem_store t q w
                    | _ => t
                    end) (ex_intro _ v0 He')) as [w [Hw Hr]].
      exists w. split; [right; exact Hw | ].
      destruct e; cbn [replay]; exact Hr.
    + assert (Hrest : forall w, ~ In (EvTileStore p w) evs).
      { intros w Hw. apply Hnone. apply in_map_iff.
        exists (EvTileStore p w). split; [reflexivity | exact Hw]. }
      destruct Hv as [-> | Hv]; [ | destruct (Hrest v Hv)].
      exists v. split; [left; reflexivity | ].
      cbn [replay]. rewrite replay_untouched by exact Hrest.
      unfold mem_store. rewrite Z.eqb_refl. reflexivity.
Qed.

Lemma replay_unique (evs : list event) (t : mem F32.float) (p : Z)
    (v : F32.float) :
  In (EvTileStore p v) evs ->
  (forall w, In (EvTileStore p w) evs -> w = v) ->
  replay evs t p = v.
Proof.
  intros Hin Huniq.
  destruct (replay_stored evs t p (ex_intro _ v Hin)) as [w [Hw Hr]].
  rewrite Hr. apply Huniq. exact Hw.
Qed.

Section Window.
Variables dx dy x_offset y_offset : Z.
Hypothesis Hfit : request_fits dx dy x_offset y_offset.
Variable t : mem F32.float.

Lemma in_remap_row_plain (j pos : Z) (v : F32.float) :
  0 <= j < dx + x_offset ->
  (In (EvTileStore pos v)
      (remap_row dx x_offset t j (Z.to_nat (dy + y_offset)) 0) <->
   exists i, 0 <= i < dy + y_offset /\
     pos = i * dx + j /\ v = t ((dx + x_offset) * j + i)).
Proof.
  intros Hj. rewrite in_remap_row. split.
  - intros [i [Hi He]].
    assert (Hi' : 0 <= i < dy + y_offset) by lia.
    destruct (remap_index_exact _ _ _ _ i j Hfit Hi' Hj) as [Hw Hr].
    rewrite Hw, Hr in He. injection He as -> ->.
    exists i. repeat split; lia.
  - intros [i [Hi [-> ->]]]. exists i.
    destruct (remap_index_exact _ _ _ _ i j Hfit Hi Hj) as [-> ->].
    split; [lia | reflexivity].
Qed.

Lemma in_remap_rows_plain (n : nat) (j0 pos : Z) (v : F32.float) :
  0 <= j0 -> j0 + Z.of_nat n <= dx + x_offset ->
  (In (EvTileStore pos v)
      (remap_rows dx x_offset t (Z.to_nat (dy + y_offset)) n j0) <->
   exists i j, 0 <= i < dy + y_offset /\ j0 <= j < j0 + Z.of_nat n /\
     pos = i * dx + j /\ v = t ((dx + x_offset) * j + i)).
Proof.
  intros H0 Hn. rewrite in_remap_rows. split.
  - intros [j [i [Hj [Hi He]]]].
    assert (Hi' : 0 <= i < dy + y_offset) by lia.
    assert (Hj' : 0 <= j < dx + x_offset) by lia.
    destruct (remap_index_exact _ _ _ _ i j Hfit Hi' Hj') as [Hw Hr].
    rewrite Hw, Hr in He. injection He as -> ->.
    exists i, j. repeat split; lia.
  - intros [i [j [Hi [Hj [-> ->]]]]]. exists j, i.
    assert (Hj' : 0 <= j < dx + x_offset) by lia.
    destruct (remap_index_exact _ _ _ _ i j Hfit Hi Hj') as [-> ->].
    repeat split; lia.
Qed.

Lemma same_row_same_position (i i' j : Z) :
  i' * dx + j = i * dx + j -> i' = i.
Proof.
  intros H. assert (Hdx : 0 < dx) by (unfold request_fits in Hfit; lia).
  apply (Z.mul_cancel_r i' i dx); lia.
Qed.

(** The store of the largest column wins. *)
Lemma replay_remap_last (n : nat) :
  forall (j0 : Z) (t0 : mem F32.float) (i j : Z),
    0 <= j0 -> j0 + Z.of_nat n <= dx + x_offset ->
    0 <= i < dy + y_offset -> j0 <= j < j0 + Z.of_nat n ->
    (forall i' j', 0 <= i' < dy + y_offset -> j < j' < j0 + Z.of_nat n ->
       i' * dx + j' <> i * dx + j) ->
    replay (remap_rows dx x_offset t (Z.to_nat (dy + y_offset)) n j0) t0
      (i * dx + j)
    = t ((dx + x_offset) * j + i).
Proof.
  induction n as [ | n IH]; intros j0 t0 i j H0 Hn Hi Hj Hlast; [lia | ].
  cbn [remap_rows]. rewrite replay_app.
  destruct (Z.eq_dec j j0) as [-> | Hne].
  - rewrite replay_untouched.
    + apply replay_unique.
      * apply in_remap_row_plain; [lia | ]. exists i. repeat split; lia.
      * intros w Hw. apply in_remap_row_plain in Hw; [ | lia].
        destruct Hw as [i' [Hi' [Hpos ->]]].
        symmetry in Hpos. apply same_row_same_position in Hpos.
        rewrite Hpos. reflexivity.
    + intros w Hw. apply in_remap_rows_plain in Hw; [ | lia | lia].
      destruct Hw as [i' [j' [Hi' [Hj' [Hpos _]]]]].
      apply (Hlast i' j'); [exact Hi' | lia | ]. symmetry. exact Hpos.
  - apply IH; try lia.
    intros i' j' Hi' Hj'. apply Hlast; [exact Hi' | lia].
Qed.

Lemma window_covered (p : Z) :
  0 <= p < (dy + y_offset) * dx + x_offset ->
  exists i j, 0 <= i < dy + y_offset /\ 0 <= j < dx + x_offset /\
    p = i * dx + j.
Proof.
  intros Hp. unfold request_fits in Hfit.
  assert (Hdx : 0 < dx) by lia.
  pose proof (Z.div_mod p dx) as Hdm.
  pose proof (Z.mod_pos_bound p dx Hdx) as Hmod.
  assert (Hq : 0 <= p / dx) by (apply Z.div_pos; lia).
  destruct (Z_lt_le_dec (p / dx) (dy + y_offset)) as [Hlt | Hge].
  - exists (p / dx), (p mod dx). repeat split; lia.
  - exists (dy + y_offset - 1), (p - (dy + y_offset - 1) * dx).
    assert (Hlow : (dy + y_offset) * dx <= p).
    { assert (dx * (dy + y_offset) <= dx * (p / dx))
        by (apply Z.mul_le_mono_nonneg_l; lia).
      lia. }
    repeat split; lia.
Qed.

Lemma window_bounds (i j : Z) :
  0 <= i < dy + y_offset -> 0 <= j < dx + x_offset ->
  0 <= i * dx + j < (dy + y_offset) * dx + x_offset.
Proof.
  intros Hi Hj. unfold request_fits in Hfit.
  assert (H1 : 0 <= i * dx <= (dy + y_offset - 1) * dx).
  { split; [apply Z.mul_nonneg_nonneg | apply Z.mul_le_mono_nonneg_r]; lia. }
  lia.
Qed.
End Window.

(** The successful call: its array is the replay of its stores, and its
    tile stores are those of the remapping loops. *)
Lemma success_tile env file dx dy x_offset y_offset word_size m data :
  os_open env file <> -1 ->
  os_read env (os_open env file)
    (read_count word_size (narray dx dy x_offset y_offset))
    = ReadBytes data ->
  os_close env (os_open env file) <> -1 ->
  let r := c_get_tile env file dx dy x_offset y_offset word_size m in
  let stores :=
    remap_rows dx x_offset (tile_1d (snd r))
      (Z.to_nat (CInt.add dy y_offset)) (Z.to_nat (CInt.add dx x_offset)) 0 in
  fst r = 1 /\
  tile (snd r) = replay stores (tile m) /\
  filter is_tile_store (events_of_call m (snd r)) = stores.
Proof.
  intros Hfd Hread Hrc. cbv zeta.
  on_path (success_path _ _ _ _ _ _ _ _ data).
  erewrite events_of_call_app by reflexivity.
  split; [reflexivity | ]. split; [reflexivity | ].
  apply success_stores; try reflexivity. apply remap_rows_only_stores.
Qed.

(** The same in plain arithmetic, for requests whose subscripts fit. *)
Lemma success_plain env file dx dy x_offset y_offset word_size m data :
  os_open env file <> -1 ->
  os_read env (os_open env file)
    (read_count word_size (narray dx dy x_offset y_offset))
    = ReadBytes data ->
  os_close env (os_open env file) <> -1 ->
  request_fits dx dy x_offset y_offset ->
  let r := c_get_tile env file dx dy x_offset y_offset word_size m in
  let samples := tile_1d (snd r) in
  (forall pos v,
     In (EvTileStore pos v) (events_of_call m (snd r)) <->
     exists i j, 0 <= i < dy + y_offset /\ 0 <= j < dx + x_offset /\
       pos = i * dx + j /\ v = samples ((dx + x_offset) * j + i)) /\
  (forall p, (forall v, ~ In (EvTileStore p v) (events_of_call m (snd r))) ->
     tile (snd r) p = tile m p) /\
  (forall p, (exists v, In (EvTileStore p v) (events_of_call m (snd r))) ->
     exists v, In (EvTileStore p v) (events_of_call m (snd r)) /\
       tile (snd r) p = v) /\
  (forall i j, 0 <= i < dy + y_offset -> 0 <= j < dx + x_offset ->
     (forall i' j', 0 <= i' < dy + y_offset -> j < j' < dx + x_offset ->
        i' * dx + j' <> i * dx + j) ->
     tile (snd r) (i * dx + j) = samples ((dx + x_offset) * j + i)).
Proof.
  intros Hfd Hread Hrc Hfit r samples.
  destruct (success_tile env file dx dy x_offset y_offset word_size m data
              Hfd Hread Hrc) as [_ [Htile Hstores]].
  fold r in Htile, Hstores. fold samples in Htile, Hstores.
  destruct (extent_exact _ _ _ _ Hfit) as [Hx Hy].
  rewrite Hx, Hy in Htile, Hstores.
  assert (Hpos : 0 < dx + x_offset /\ 0 < dy + y_offset)
    by (unfold request_fits in Hfit; lia).
  assert (Hn : 0 + Z.of_nat (Z.to_nat (dx + x_offset)) = dx + x_offset)
    by lia.
  assert (Hin : forall pos v,
            In (EvTileStore pos v) (events_of_call m (snd r)) <->
            In (EvTileStore pos v)
               (remap_rows dx x_offset samples (Z.to_nat (dy + y_offset))
                  (Z.to_nat (dx + x_offset)) 0)).
  { intros pos v. rewrite <- Hstores, filter_In. cbn [is_tile_store]. tauto. }
  assert (Hplain : forall pos v,
            In (EvTileStore pos v) (events_of_call m (snd r)) <->
            exists i j, 0 <= i < dy + y_offset /\ 0 <= j < dx + x_offset /\
              pos = i * dx + j /\ v = samples ((dx + x_offset) * j + i)).
  { intros pos v. rewrite Hin.
    rewrite (in_remap_rows_plain dx dy x_offset y_offset Hfit samples)
      by lia.
    rewrite Hn. reflexivity. }
  split; [exact Hplain | ]. split.
  { intros p Hnone. rewrite Htile. apply replay_untouched.
    intros v Hv. apply (Hnone v). apply Hin. exact Hv. }
  split.
  { intros p [v Hv]. rewrite Htile.
    destruct (replay_stored _ (tile m) p
                (ex_intro _ v (proj1 (Hin p v) Hv))) as [w [Hw Hr]].
    exists w. split; [apply Hin; exact Hw | exact Hr]. }
  intros i j Hi Hj Hlast. rewrite Htile.
  apply (replay_remap_last dx dy x_offset y_offset Hfit samples); try lia.
  intros i' j' Hi' Hj'. apply Hlast; [exact Hi' | lia].
Qed.

(** X7.  On success every store lands in the window
    [0, (dy+y_offset)*dx + x_offset) and every position outside it keeps
    its content; with both offsets zero the window is the [dx*dy] array,
    so nothing is written out of bounds. *)
Theorem stores_stay_in_window :
  forall env file dx dy x_offset y_offset word_size m data,
    let fd := os_open env file in
    let r := c_get_tile env file dx dy x_offset y_offset word_size m in
    fd <> -1 ->
    os_read env fd (read_count word_size (narray dx dy x_offset y_offset))
      = ReadBytes data ->
    os_close env fd <> -1 ->
    request_fits dx dy x_offset y_offset ->
    (forall pos v, In (EvTileStore pos v) (events_of_call m (snd r)) ->
       0 <= pos < (dy + y_offset) * dx + x_offset) /\
    (forall p, p < 0 \/ (dy + y_offset) * dx + x_offset <= p ->
       tile (snd r) p = tile m p) /\
    (x_offset = 0 -> y_offset = 0 ->
     forall pos v, In (EvTileStore pos v) (events_of_call m (snd r)) ->
       0 <= pos < dx * dy).
Proof.
  intros env file dx dy x_offset y_offset word_size m data fd r
         Hfd Hread Hrc Hfit.
  destruct (success_plain env file dx dy x_offset y_offset word_size m data
              Hfd Hread Hrc Hfit) as [Hin [Hkeep _]].
  fold r in Hin, Hkeep.
  assert (Hwin : forall pos v,
            In (EvTileStore pos v) (events_of_call m (snd r)) ->
            0 <= pos < (dy + y_offset) * dx + x_offset).
  { intros pos v Hs. apply Hin in Hs.
    destruct Hs as [i [j [Hi [Hj [-> _]]]]].
    apply (window_bounds dx dy x_offset y_offset Hfit); assumption. }
  split; [exact Hwin | ]. split.
  - intros p Hp. apply Hkeep. intros v Hv. apply Hwin in Hv. lia.
  - intros Hx Hy pos v Hs. apply Hwin in Hs. subst x_offset y_offset.
    replace (dx * dy) with ((dy + 0) * dx + 0) by ring. exact Hs.
Qed.

Lemma stores_stay_in_window_witness :
  request_fits 2 2 0 0 /\
  forall p, p < 0 \/ (2 + 0) * 2 + 0 <= p ->
    tile (snd (c_get_tile (regular_file "tile.bin" four_samples) "tile.bin"
                 2 2 0 0 2 zeroed)) p = tile zeroed p.
Proof.
  assert (Hfd : os_open (regular_file "tile.bin" four_samples) "tile.bin"
                <> -1) by (vm_compute; discriminate).
  assert (Hread :
            os_read (regular_file "tile.bin" four_samples)
              (os_open (regular_file "tile.bin" four_samples) "tile.bin")
              (read_count 2 (narray 2 2 0 0))
            = ReadBytes four_samples) by reflexivity.
  assert (Hrc : os_close (regular_file "tile.bin" four_samples)
                  (os_open (regular_file "tile.bin" four_samples) "tile.bin")
                <> -1) by (vm_compute; discriminate).
  assert (Hfit : request_fits 2 2 0 0)
    by (unfold request_fits, CInt.max_int; lia).
  split; [exact Hfit | ].
  exact (proj1 (proj2
           (stores_stay_in_window
              (regular_file "tile.bin" four_samples) "tile.bin"
              2 2 0 0 2 zeroed four_samples Hfd Hread Hrc Hfit))).
Defined.

(** X8.  On success the whole window, and so every element of the
    [dx*dy] array, ends up holding a sample: each position [p] below
    [(dy+y_offset)*dx + x_offset] is [i*dx + j] for some row and column of
    the padded extent and holds [tile_1d[(dx+x_offset)*j + i]]; none keeps
    what it held before the call. *)
Theorem success_fills_the_window :
  forall env file dx dy x_offset y_offset word_size m data,
    let fd := os_open env file in
    let r := c_get_tile env file dx dy x_offset y_offset word_size m in
    fd <> -1 ->
    os_read env fd (read_count word_size (narray dx dy x_offset y_offset))
      = ReadBytes data ->
    os_close env fd <> -1 ->
    request_fits dx dy x_offset y_offset ->
    dx * dy <= (dy + y_offset) * dx + x_offset /\
    forall p, 0 <= p < (dy + y_offset) * dx + x_offset ->
      exists i j, 0 <= i < dy + y_offset /\ 0 <= j < dx + x_offset /\
        p = i * dx + j /\
        tile (snd r) p = tile_1d (snd r) ((dx + x_offset) * j + i).
Proof.
  intros env file dx dy x_offset y_offset word_size m data fd r
         Hfd Hread Hrc Hfit.
  destruct (success_plain env file dx dy x_offset y_offset word_size m data
              Hfd Hread Hrc Hfit) as [Hin [_ [Hlast _]]].
  fold r in Hin, Hlast.
  split.
  { unfold request_fits in Hfit.
    assert (0 <= y_offset * dx) by (apply Z.mul_nonneg_nonneg; lia).
    replace ((dy + y_offset) * dx) with (dx * dy + y_offset * dx) by ring.
    lia. }
  intros p Hp.
  destruct (window_covered dx dy x_offset y_offset Hfit p Hp)
    as [i0 [j0 [Hi0 [Hj0 Hp0]]]].
  destruct (Hlast p) as [v [Hv Hr]].
  { eexists. apply Hin. exists i0, j0.
    split; [exact Hi0 | ]. split; [exact Hj0 | ].
    split; [exact Hp0 | reflexivity]. }
  apply Hin in Hv. destruct Hv as [i [j [Hi [Hj [Hpos Hval]]]]].
  exists i, j. repeat split; try lia. rewrite Hr. exact Hval.
Qed.

Lemma success_fills_the_window_witness :
  request_fits 2 2 0 0 /\
  exists i j, 0 <= i < 2 + 0 /\ 0 <= j < 2 + 0 /\ 3 = i * 2 + j /\
    tile (snd (c_get_tile (regular_file "tile.bin" four_samples) "tile.bin"
                 2 2 0 0 2 zeroed)) 3
    = tile_1d (snd (c_get_tile (regular_file "tile.bin" four_samples)
                      "tile.bin" 2 2 0 0 2 zeroed)) ((2 + 0) * j + i).
Proof.
  assert (Hfd : os_open (regular_file "tile.bin" four_samples) "tile.bin"
                <> -1) by (vm_compute; discriminate).
  assert (Hread :
            os_read (regular_file "tile.bin" four_samples)
              (os_open (regular_file "tile.bin" four_samples) "tile.bin")
              (read_count 2 (narray 2 2 0 0))
            = ReadBytes four_samples) by reflexivity.
  assert (Hrc : os_close (regular_file "tile.bin" four_samples)
                  (os_open (regular_file "tile.bin" four_samples) "tile.bin")
                <> -1) by (vm_compute; discriminate).
  assert (Hfit : request_fits 2 2 0 0)
    by (unfold request_fits, CInt.max_int; lia).
  assert (Hp : 0 <= 3 < (2 + 0) * 2 + 0) by lia.
  split; [exact Hfit | ].
  exact (proj2
           (success_fills_the_window
              (regular_file "tile.bin" four_samples) "tile.bin"
              2 2 0 0 2 zeroed four_samples Hfd Hread Hrc Hfit) 3 Hp).
Defined.

(** A non-zero multiple of [dx] is at least [dx] away from 0. *)
Lemma multiple_gap (dx a d : Z) :
  0 < dx -> a * dx = d -> - dx < d < dx -> a = 0.
Proof.
  intros Hdx Ha Hd.
  destruct (Z_lt_le_dec a 0) as [Hneg | Hnn].
  - assert (a * dx <= -1 * dx) by (apply Z.mul_le_mono_nonneg_r; lia). lia.
  - destruct (Z.eq_dec a 0) as [H0 | Hnz]; [exact H0 | ].
    assert (1 * dx <= a * dx) by (apply Z.mul_le_mono_nonneg_r; lia). lia.
Qed.

(** X9.  Where two stores of the remapping hit the same position, the one
    of the larger column [j] is the later one and decides the content: if
    no larger column of the padded extent maps to position [i*dx + j],
    that position ends up holding [tile_1d[(dx+x_offset)*j + i]]. *)
Theorem largest_column_wins :
  forall env file dx dy x_offset y_offset word_size m data,
    let fd := os_open env file in
    let r := c_get_tile env file dx dy x_offset y_offset word_size m in
    fd <> -1 ->
    os_read env fd (read_count word_size (narray dx dy x_offset y_offset))
      = ReadBytes data ->
    os_close env fd <> -1 ->
    request_fits dx dy x_offset y_offset ->
    forall i j, 0 <= i < dy + y_offset -> 0 <= j < dx + x_offset ->
      (forall i' j', 0 <= i' < dy + y_offset -> j < j' < dx + x_offset ->
         i' * dx + j' <> i * dx + j) ->
      tile (snd r) (i * dx + j) = tile_1d (snd r) ((dx + x_offset) * j + i).
Proof.
  intros env file dx dy x_offset y_offset word_size m data fd r
         Hfd Hread Hrc Hfit.
  exact (proj2 (proj2 (proj2
           (success_plain env file dx dy x_offset y_offset word_size m data
              Hfd Hread Hrc Hfit)))).
Qed.

Lemma largest_column_wins_witness :
  request_fits 1 2 1 0 /\
  tile (snd (c_get_tile (regular_file "tile.bin" four_samples) "tile.bin"
               1 2 1 0 2 zeroed)) (0 * 1 + 1)
  = tile_1d (snd (c_get_tile (regular_file "tile.bin" four_samples)
                    "tile.bin" 1 2 1 0 2 zeroed)) ((1 + 1) * 1 + 0).
Proof.
  assert (Hfd : os_open (regular_file "tile.bin" four_samples) "tile.bin"
                <> -1) by (vm_compute; discriminate).
  assert (Hread :
            os_read (regular_file "tile.bin" four_samples)
              (os_open (regular_file "tile.bin" four_samples) "tile.bin")
              (read_count 2 (narray 1 2 1 0))
            = ReadBytes four_samples) by reflexivity.
  assert (Hrc : os_close (regular_file "tile.bin" four_samples)
                  (os_open (regular_file "tile.bin" four_samples) "tile.bin")
                <> -1) by (vm_compute; discriminate).
  assert (Hfit : request_fits 1 2 1 0)
    by (unfold request_fits, CInt.max_int; lia).
  assert (Hi : 0 <= 0 < 2 + 0) by lia.
  assert (Hj : 0 <= 1 < 1 + 1) by lia.
  assert (Hlast : forall i' j', 0 <= i' < 2 + 0 -> 1 < j' < 1 + 1 ->
                    i' * 1 + j' <> 0 * 1 + 1) by (intros i' j' _ Hj'; lia).
  split; [exact Hfit | ].
  exact (largest_column_wins
           (regular_file "tile.bin" four_samples) "tile.bin"
           1 2 1 0 2 zeroed four_samples Hfd Hread Hrc Hfit 0 1 Hi Hj Hlast).
Defined.

(** X10.  Without an x offset the remapping is a clean transposition:
    on success, for every row [i] below [dy+y_offset] and column [j] below
    [dx], the caller's array holds at [i*dx + j] the sample
    [tile_1d[dx*j + i]]. *)
Theorem transposes_without_x_offset :
  forall env file dx dy y_offset word_size m data,
    let fd := os_open env file in
    let r := c_get_tile env file dx dy 0 y_offset word_size m in
    fd <> -1 ->
    os_read env fd (read_count word_size (narray dx dy 0 y_offset))
      = ReadBytes data ->
    os_close env fd <> -1 ->
    request_fits dx dy 0 y_offset ->
    forall i j, 0 <= i < dy + y_offset -> 0 <= j < dx ->
      tile (snd r) (i * dx + j) = tile_1d (snd r) (dx * j + i).
Proof.
  intros env file dx dy y_offset word_size m data fd r Hfd Hread Hrc Hfit
         i j Hi Hj.
  destruct (success_plain env file dx dy 0 y_offset word_size m data
              Hfd Hread Hrc Hfit) as [_ [_ [_ Hlast]]].
  fold r in Hlast. rewrite Z.add_0_r in Hlast.
  apply Hlast; [exact Hi | exact Hj | ].
  intros i' j' Hi' Hj' Hpos.
  assert (Hdx : 0 < dx) by (unfold request_fits in Hfit; lia).
  assert (Hz : i' - i = 0).
  { apply (multiple_gap dx (i' - i) (j - j') Hdx); [ | lia].
    rewrite Z.mul_sub_distr_r. lia. }
  assert (i' = i) by lia. subst i'. lia.
Qed.

Lemma transposes_without_x_offset_witness :
  request_fits 2 2 0 0 /\
  tile (snd (c_get_tile (regular_file "tile.bin" four_samples) "tile.bin"
               2 2 0 0 2 zeroed)) (1 * 2 + 0)
  = tile_1d (snd (c_get_tile (regular_file "tile.bin" four_samples)
                    "tile.bin" 2 2 0 0 2 zeroed)) (2 * 0 + 1).
Proof.
  assert (Hfd : os_open (regular_file "tile.bin" four_samples) "tile.bin"
                <> -1) by (vm_compute; discriminate).
  assert (Hread :
            os_read (regular_file "tile.bin" four_samples)
              (os_open (regular_file "tile.bin" four_samples) "tile.bin")
              (read_count 2 (narray 2 2 0 0))
            = ReadBytes four_samples) by reflexivity.
  assert (Hrc : os_close (regular_file "tile.bin" four_samples)
                  (os_open (regular_file "tile.bin" four_samples) "tile.bin")
                <> -1) by (vm_compute; discriminate).
  assert (Hfit : request_fits 2 2 0 0)
    by (unfold request_fits, CInt.max_int; lia).
  assert (Hi : 0 <= 1 < 2 + 0) by lia.
  assert (Hj : 0 <= 0 < 2) by lia.
  split; [exact Hfit | ].
  exact (transposes_without_x_offset
           (regular_file "tile.bin" four_samples) "tile.bin"
           2 2 0 2 zeroed four_samples Hfd Hread Hrc Hfit 1 0 Hi Hj).
Defined.

(** X11.  With an x offset the padded columns overwrite the next row:
    for [0 < x_offset <= dx], a row [i >= 1] and a column [j < x_offset],
    the element at [i*dx + j] ends up holding the sample of row [i-1] and
    padded column [j+dx], not the sample of row [i] and column [j]. *)
Theorem x_padding_overwrites_next_row :
  forall env file dx dy x_offset y_offset word_size m data,
    let fd := os_open env file in
    let r := c_get_tile env file dx dy x_offset y_offset word_size m in
    fd <> -1 ->
    os_read env fd (read_count word_size (narray dx dy x_offset y_offset))
      = ReadBytes data ->
    os_close env fd <> -1 ->
    request_fits dx dy x_offset y_offset ->
    0 < x_offset <= dx ->
    forall i j, 1 <= i <= dy + y_offset -> 0 <= j < x_offset ->
      tile (snd r) (i * dx + j)
      = tile_1d (snd r) ((dx + x_offset) * (j + dx) + (i - 1)).
Proof.
  intros env file dx dy x_offset y_offset word_size m data fd r
         Hfd Hread Hrc Hfit Hxo i j Hi Hj.
  destruct (success_plain env file dx dy x_offset y_offset word_size m data
              Hfd Hread Hrc Hfit) as [_ [_ [_ Hlast]]].
  fold r in Hlast.
  replace (i * dx + j) with ((i - 1) * dx + (j + dx)) by ring.
  apply Hlast; [lia | lia | ].
  intros i' j' Hi' Hj' Hpos.
  assert (Hdx : 0 < dx) by (unfold request_fits in Hfit; lia).
  assert (Hz : i' - (i - 1) = 0).
  { apply (multiple_gap dx (i' - (i - 1)) (j + dx - j') Hdx); [ | lia].
    rewrite Z.mul_sub_distr_r. lia. }
  assert (i' = i - 1) by lia. subst i'. lia.
Qed.

Lemma x_padding_overwrites_next_row_witness :
  request_fits 1 2 1 0 /\ 0 < 1 <= 1 /\
  tile (snd (c_get_tile (regular_file "tile.bin" four_samples) "tile.bin"
               1 2 1 0 2 zeroed)) (1 * 1 + 0)
  = tile_1d (snd (c_get_tile (regular_file "tile.bin" four_samples)
                    "tile.bin" 1 2 1 0 2 zeroed)) ((1 + 1) * (0 + 1) + (1 - 1)).
Proof.
  assert (Hfd : os_open (regular_file "tile.bin" four_samples) "tile.bin"
                <> -1) by (vm_compute; discriminate).
  assert (Hread :
            os_read (regular_file "tile.bin" four_samples)
              (os_open (regular_file "tile.bin" four_samples) "tile.bin")
              (read_count 2 (narray 1 2 1 0))
            = ReadBytes four_samples) by reflexivity.
  assert (Hrc : os_close (regular_file "tile.bin" four_samples)
                  (os_open (regular_file "tile.bin" four_samples) "tile.bin")
                <> -1) by (vm_compute; discriminate).
  assert (Hfit : request_fits 1 2 1 0)
    by (unfold request_fits, CInt.max_int; lia).
  assert (Hxo : 0 < 1 <= 1) by lia.
  assert (Hi : 1 <= 1 <= 2 + 0) by lia.
  assert (Hj : 0 <= 0 < 1) by lia.
  split; [exact Hfit | ]. split; [exact Hxo | ].
  exact (x_padding_overwrites_next_row
           (regular_file "tile.bin" four_samples) "tile.bin"
           1 2 1 0 2 zeroed four_samples Hfd Hread Hrc Hfit Hxo 1 0 Hi Hj).
Defined.

(** ** The samples after a successful call *)

Lemma success_samples env file dx dy x_offset y_offset word_size m data :
  os_open env file <> -1 ->
  os_read env (os_open env file)
    (read_count word_size (narray dx dy x_offset y_offset))
    = ReadBytes data ->
  os_close env (os_open env file) <> -1 ->
  let r := c_get_tile env file dx dy x_offset y_offset word_size m in
  let got :=
    transfer (read_count word_size (narray dx dy x_offset y_offset)) data in
  buf (snd r) = mem_write_bytes (buf m) 0 got /\
  tile_1d (snd r) =
  decode_mem word_size (Z.to_nat (narray dx dy x_offset y_offset)) 0
    (mem_write_bytes (buf m) 0 got) (tile_1d m).
Proof.
  intros Hfd Hread Hrc. cbv zeta.
  on_path (success_path _ _ _ _ _ _ _ _ data).
  split; reflexivity.
Qed.

Lemma decode_mem_outside (word_size : Z) (n : nat) (i0 : Z) b t (k : Z) :
  k < i0 \/ i0 + Z.of_nat n <= k -> decode_mem word_size n i0 b t k = t k.
Proof.
  intros Hk. destruct (Z.eq_dec word_size 2) as [-> | Hws].
  - rewrite decode_mem_spec.
    destruct (Z.leb_spec i0 k); destruct (Z.ltb_spec k (i0 + Z.of_nat n));
      cbn [andb]; try reflexivity. lia.
  - rewrite decode_mem_other by exact Hws. reflexivity.
Qed.

(** X12.  End to end, for 16-bit words without x offset: when the three
    system calls succeed, the file holds the whole extent, the extent is
    no wider than it is tall and the sizes fit in [int], the call returns
    1 and the caller's array holds at [i*dx + j] the float of the
    big-endian signed 16-bit word stored in the file at sample
    [k = dx*j + i], bytes [2k] and [2k+1]; the float denotes exactly that
    integer. *)
Theorem decodes_file_into_transposed_tile :
  forall env file dx dy y_offset m data,
    let fd := os_open env file in
    let r := c_get_tile env file dx dy 0 y_offset 2 m in
    fd <> -1 ->
    os_read env fd (read_count 2 (narray dx dy 0 y_offset))
      = ReadBytes data ->
    os_close env fd <> -1 ->
    0 < dx -> 0 < dy -> 0 <= y_offset ->
    dx <= dy + y_offset ->
    2 * (dx * (dy + y_offset)) <= CInt.max_int ->
    read_count 2 (narray dx dy 0 y_offset) <= Z.of_nat (List.length data) ->
    fst r = 1 /\
    forall i j, 0 <= i < dy + y_offset -> 0 <= j < dx ->
      tile (snd r) (i * dx + j)
      = F32.of_int
          (spec_decode16
             (nth (Z.to_nat (2 * (dx * j + i))) data Byte.x00)
             (nth (Z.to_nat (2 * (dx * j + i) + 1)) data Byte.x00)) /\
      F32.to_Z (tile (snd r) (i * dx + j))
      = Some (spec_decode16
                (nth (Z.to_nat (2 * (dx * j + i))) data Byte.x00)
                (nth (Z.to_nat (2 * (dx * j + i) + 1)) data Byte.x00)).
Proof.
  intros env file dx dy y_offset m data fd r Hfd Hread Hrc Hdx Hdy Hyo
         Htall Hsize Hfull.
  assert (Hxo : 0 <= 0) by lia.
  assert (Htall' : dx + 0 <= dy + y_offset) by lia.
  assert (Hsize' : 2 * ((dx + 0) * (dy + y_offset)) <= CInt.max_int)
    by (rewrite Z.add_0_r; exact Hsize).
  pose proof (tall_request_fits dx dy 0 y_offset Hdx Hdy Hxo Hyo Htall'
                Hsize') as Hfit.
  destruct (success_tile env file dx dy 0 y_offset 2 m data Hfd Hread Hrc)
    as [Hstatus _].
  destruct (success_plain env file dx dy 0 y_offset 2 m data
              Hfd Hread Hrc Hfit) as [_ [_ [_ Hlast]]].
  destruct (success_samples env file dx dy 0 y_offset 2 m data
              Hfd Hread Hrc) as [_ Hsamples].
  fold r in Hstatus, Hlast, Hsamples.
  split; [exact Hstatus | ].
  intros i j Hi Hj.
  assert (Hj' : 0 <= j < dx + 0) by lia.
  assert (Hval : tile (snd r) (i * dx + j)
                 = F32.of_int
                     (sample_value 2
                        (nth (Z.to_nat (2 * (dx * j + i))) data Byte.x00)
                        (nth (Z.to_nat (2 * (dx * j + i) + 1)) data
                           Byte.x00))).
  { rewrite Hlast; [ | exact Hi | exact Hj' | ].
    - rewrite Hsamples.
      destruct (remap_index_exact _ _ _ _ i j Hfit Hi Hj') as [_ Hr].
      rewrite <- Hr.
      rewrite (decoded_sample_from_file dx dy 0 y_offset
                 Hdx Hdy Hxo Hyo Htall' Hsize' data) by assumption.
      rewrite Z.add_0_r. reflexivity.
    - intros i' j' Hi' Hj'' Hpos.
      assert (Hz : i' - i = 0).
      { apply (multiple_gap dx (i' - i) (j - j') Hdx); [ | lia].
        rewrite Z.mul_sub_distr_r. lia. }
      assert (i' = i) by lia. subst i'. lia. }
  rewrite Hval, sample_value_spec. split; [reflexivity | ].
  rewrite <- sample_value_spec.
  apply int16_exact. apply sample_value_range.
Qed.

Lemma decodes_file_into_transposed_tile_witness :
  2 <= 2 + 0 /\
  2 * (2 * (2 + 0)) <= CInt.max_int /\
  read_count 2 (narray 2 2 0 0) <= Z.of_nat (List.length four_samples) /\
  F32.to_Z
    (tile (snd (c_get_tile (regular_file "tile.bin" four_samples) "tile.bin"
                  2 2 0 0 2 zeroed)) (1 * 2 + 0))
  = Some (spec_decode16
            (nth (Z.to_nat (2 * (2 * 0 + 1))) four_samples Byte.x00)
            (nth (Z.to_nat (2 * (2 * 0 + 1) + 1)) four_samples Byte.x00)).
Proof.
  assert (Hfd : os_open (regular_file "tile.bin" four_samples) "tile.bin"
                <> -1) by (vm_compute; discriminate).
  assert (Hread :
            os_read (regular_file "tile.bin" four_samples)
              (os_open (regular_file "tile.bin" four_samples) "tile.bin")
              (read_count 2 (narray 2 2 0 0))
            = ReadBytes four_samples) by reflexivity.
  assert (Hrc : os_close (regular_file "tile.bin" four_samples)
                  (os_open (regular_file "tile.bin" four_samples) "tile.bin")
                <> -1) by (vm_compute; discriminate).
  assert (Hdx : 0 < 2) by lia.
  assert (Hyo : 0 <= 0) by lia.
  assert (Htall : 2 <= 2 + 0) by lia.
  assert (Hsize : 2 * (2 * (2 + 0)) <= CInt.max_int)
    by (unfold CInt.max_int; lia).
  assert (Hfull : read_count 2 (narray 2 2 0 0)
                  <= Z.of_nat (List.length four_samples))
    by (vm_compute; discriminate).
  assert (Hi : 0 <= 1 < 2 + 0) by lia.
  assert (Hj : 0 <= 0 < 2) by lia.
  split; [exact Htall | ]. split; [exact Hsize | ]. split; [exact Hfull | ].
  exact (proj2 (proj2
           (decodes_file_into_transposed_tile
              (regular_file "tile.bin" four_samples) "tile.bin"
              2 2 0 zeroed four_samples Hfd Hread Hrc Hdx Hdx Hyo Htall
              Hsize Hfull) 1 0 Hi Hj)).
Defined.

(** X13.  Whether the remapping stays inside [tile_1d] depends on the shape
    of the padded extent.  When it is no wider than it is tall, every
    subscript [(dx+x_offset)*j + i] the loops use lies in [0, narray).
    When it is wider, the subscript of the last row and column,
    [(dx+x_offset)*(dx+x_offset-1) + (dy+y_offset-1)], is at or past
    [narray]: the store at the last position of the window takes its value
    from outside the array. *)
Theorem wide_extent_reads_past_narray :
  forall env file dx dy x_offset y_offset word_size m data,
    let fd := os_open env file in
    let r := c_get_tile env file dx dy x_offset y_offset word_size m in
    let k := (dx + x_offset) * (dx + x_offset - 1) + (dy + y_offset - 1) in
    fd <> -1 ->
    os_read env fd (read_count word_size (narray dx dy x_offset y_offset))
      = ReadBytes data ->
    os_close env fd <> -1 ->
    request_fits dx dy x_offset y_offset ->
    (dx + x_offset) * (dy + y_offset) <= CInt.max_int ->
    narray dx dy x_offset y_offset = (dx + x_offset) * (dy + y_offset) /\
    (dx + x_offset <= dy + y_offset ->
     forall i j, 0 <= i < dy + y_offset -> 0 <= j < dx + x_offset ->
       0 <= (dx + x_offset) * j + i < narray dx dy x_offset y_offset) /\
    (dy + y_offset < dx + x_offset ->
     narray dx dy x_offset y_offset <= k /\
     In (EvTileStore ((dy + y_offset - 1) * dx + (dx + x_offset - 1))
           (tile_1d (snd r) k))
        (events_of_call m (snd r))).
Proof.
  intros env file dx dy x_offset y_offset word_size m data fd r k
         Hfd Hread Hrc Hfit Hprod.
  destruct (success_plain env file dx dy x_offset y_offset word_size m data
              Hfd Hread Hrc Hfit) as [Hin _].
  fold r in Hin.
  destruct (extent_exact _ _ _ _ Hfit) as [Hx Hy].
  assert (Hdims : 0 < dx + x_offset /\ 0 < dy + y_offset)
    by (unfold request_fits in Hfit; lia).
  assert (Hnn : 0 <= (dx + x_offset) * (dy + y_offset))
    by (apply Z.mul_nonneg_nonneg; lia).
  assert (Hn : narray dx dy x_offset y_offset
               = (dx + x_offset) * (dy + y_offset)).
  { unfold narray. rewrite Hx, Hy. apply mul_exact.
    unfold CInt.in_range, CInt.min_int, CInt.max_int in *. lia. }
  split; [exact Hn | ]. split.
  - intros Htall i j Hi Hj. rewrite Hn.
    assert (H1 : 0 <= (dx + x_offset) * j
                 <= (dx + x_offset) * (dx + x_offset - 1)).
    { split; [apply Z.mul_nonneg_nonneg | apply Z.mul_le_mono_nonneg_l];
        lia. }
    assert (H2 : (dx + x_offset) * (dx + x_offset - 1)
                 <= (dy + y_offset) * (dx + x_offset - 1))
      by (apply Z.mul_le_mono_nonneg_r; lia).
    assert (H3 : (dy + y_offset) * (dx + x_offset - 1) + (dy + y_offset)
                 = (dx + x_offset) * (dy + y_offset)) by ring.
    lia.
  - intros Hwide.
    assert (Hle : (dx + x_offset) * (dy + y_offset)
                  <= (dx + x_offset) * (dx + x_offset - 1))
      by (apply Z.mul_le_mono_nonneg_l; lia).
    split; [subst k; lia | ].
    apply Hin. exists (dy + y_offset - 1), (dx + x_offset - 1).
    split; [lia | ]. split; [lia | ]. split; reflexivity.
Qed.

Lemma wide_extent_reads_past_narray_witness :
  request_fits 2 1 0 0 /\ (2 + 0) * (1 + 0) <= CInt.max_int /\
  1 + 0 < 2 + 0 /\
  narray 2 1 0 0 <= (2 + 0) * (2 + 0 - 1) + (1 + 0 - 1).
Proof.
  assert (Hfd : os_open (regular_file "tile.bin" four_samples) "tile.bin"
                <> -1) by (vm_compute; discriminate).
  assert (Hread :
            os_read (regular_file "tile.bin" four_samples)
              (os_open (regular_file "tile.bin" four_samples) "tile.bin")
              (read_count 2 (narray 2 1 0 0))
            = ReadBytes four_samples) by reflexivity.
  assert (Hrc : os_close (regular_file "tile.bin" four_samples)
                  (os_open (regular_file "tile.bin" four_samples) "tile.bin")
                <> -1) by (vm_compute; discriminate).
  assert (Hfit : request_fits 2 1 0 0)
    by (unfold request_fits, CInt.max_int; lia).
  assert (Hprod : (2 + 0) * (1 + 0) <= CInt.max_int)
    by (unfold CInt.max_int; lia).
  assert (Hwide : 1 + 0 < 2 + 0) by lia.
  split; [exact Hfit | ]. split; [exact Hprod | ]. split; [exact Hwide | ].
  exact (proj1
           (proj2 (proj2
              (wide_extent_reads_past_narray
                 (regular_file "tile.bin" four_samples) "tile.bin"
                 2 1 0 0 2 zeroed four_samples Hfd Hread Hrc Hfit Hprod))
              Hwide)).
Defined.

(** X14.  After a short read with 16-bit words, a sample whose two bytes
    were delivered is decoded from the file, and a sample whose two bytes
    lie past the delivered count is decoded from what the fresh heap block
    held: the loop decodes all [narray] samples regardless of how many
    bytes arrived. *)
Theorem short_read_decodes_stale_bytes :
  forall env file dx dy x_offset y_offset m data,
    let fd := os_open env file in
    let n := narray dx dy x_offset y_offset in
    let got := transfer (read_count 2 n) data in
    let r := c_get_tile env file dx dy x_offset y_offset 2 m in
    fd <> -1 ->
    os_read env fd (read_count 2 n) = ReadBytes data ->
    os_close env fd <> -1 ->
    2 * n <= CInt.max_int ->
    forall k, 0 <= k < n ->
      (2 * k + 1 < Z.of_nat (List.length got) ->
       tile_1d (snd r) k
       = F32.of_int (sample_value 2 (nth (Z.to_nat (2 * k)) got Byte.x00)
                       (nth (Z.to_nat (2 * k + 1)) got Byte.x00))) /\
      (Z.of_nat (List.length got) <= 2 * k ->
       tile_1d (snd r) k
       = F32.of_int (sample_value 2 (buf m (2 * k)) (buf m (2 * k + 1)))).
Proof.
  intros env file dx dy x_offset y_offset m data fd n got r
         Hfd Hread Hrc Hfit k Hk.
  destruct (success_samples env file dx dy x_offset y_offset 2 m data
              Hfd Hread Hrc) as [_ Hsamples].
  fold n in Hsamples. fold got in Hsamples. fold r in Hsamples.
  rewrite Hsamples, decode_mem_spec.
  destruct (Z.leb_spec 0 k); [ | lia].
  destruct (Z.ltb_spec k (0 + Z.of_nat (Z.to_nat n))); [ | lia].
  cbn [andb].
  destruct (decode_index_exact n k Hk Hfit) as [-> ->].
  rewrite !mem_write_bytes_spec.
  split; intros Hlen.
  - destruct (Z.leb_spec 0 (2 * k)); [ | lia].
    destruct (Z.ltb_spec (2 * k) (0 + Z.of_nat (List.length got)));
      [ | lia].
    destruct (Z.leb_spec 0 (2 * k + 1)); [ | lia].
    destruct (Z.ltb_spec (2 * k + 1) (0 + Z.of_nat (List.length got)));
      [ | lia].
    cbn [andb]. rewrite !Z.sub_0_r. reflexivity.
  - destruct (Z.ltb_spec (2 * k) (0 + Z.of_nat (List.length got)));
      [lia | ].
    destruct (Z.ltb_spec (2 * k + 1) (0 + Z.of_nat (List.length got)));
      [lia | ].
    rewrite !andb_false_r. reflexivity.
Qed.

Lemma short_read_decodes_stale_bytes_witness :
  2 * narray 2 2 0 0 <= CInt.max_int /\ 0 <= 1 < narray 2 2 0 0 /\
  Z.of_nat (List.length (transfer (read_count 2 (narray 2 2 0 0))
                           [Byte.x00; Byte.x01])) <= 2 * 1 /\
  tile_1d (snd (c_get_tile (regular_file "tile.bin" [Byte.x00; Byte.x01])
                  "tile.bin" 2 2 0 0 2 zeroed)) 1
  = F32.of_int (sample_value 2 (buf zeroed (2 * 1)) (buf zeroed (2 * 1 + 1))).
Proof.
  assert (Hfd : os_open (regular_file "tile.bin" [Byte.x00; Byte.x01])
                  "tile.bin" <> -1) by (vm_compute; discriminate).
  assert (Hread :
            os_read (regular_file "tile.bin" [Byte.x00; Byte.x01])
              (os_open (regular_file "tile.bin" [Byte.x00; Byte.x01])
                 "tile.bin")
              (read_count 2 (narray 2 2 0 0))
            = ReadBytes [Byte.x00; Byte.x01]) by reflexivity.
  assert (Hrc : os_close (regular_file "tile.bin" [Byte.x00; Byte.x01])
                  (os_open (regular_file "tile.bin" [Byte.x00; Byte.x01])
                     "tile.bin") <> -1) by (vm_compute; discriminate).
  assert (Hfit : 2 * narray 2 2 0 0 <= CInt.max_int)
    by (vm_compute; discriminate).
  assert (Hk : 0 <= 1 < narray 2 2 0 0) by (vm_compute; split; congruence).
  assert (Hlen : Z.of_nat (List.length
                             (transfer (read_count 2 (narray 2 2 0 0))
                                [Byte.x00; Byte.x01])) <= 2 * 1)
    by (vm_compute; discriminate).
  split; [exact Hfit | ]. split; [exact Hk | ]. split; [exact Hlen | ].
  exact (proj2
           (short_read_decodes_stale_bytes
              (regular_file "tile.bin" [Byte.x00; Byte.x01]) "tile.bin"
              2 2 0 0 zeroed [Byte.x00; Byte.x01] Hfd Hread Hrc Hfit 1 Hk)
           Hlen).
Defined.

(** ** Short reads *)

(** C7.  A read that delivers fewer bytes than were asked for is not a
    failure: with open and close succeeding the call returns 1, the read
    event records the short count, the bytes past it keep what the fresh
    block held, and the call goes on to decode and to remap.  The decoding
    loop runs over all [narray] samples of the buffer as the read left it:
    with 16-bit words a sample is decoded from the delivered bytes where
    they arrived and from the block's previous content where they did not.
    The remapping then stores those samples, one store per row and column
    of the padded extent. *)
Theorem short_read_is_success :
  forall env file dx dy x_offset y_offset word_size m data,
    let fd := os_open env file in
    let count := read_count word_size (narray dx dy x_offset y_offset) in
    let got := transfer count data in
    let r := c_get_tile env file dx dy x_offset y_offset word_size m in
    fd <> -1 ->
    os_read env fd count = ReadBytes data ->
    Z.of_nat (List.length got) < count ->
    os_close env fd <> -1 ->
    fst r = 1 /\
    In (EvRead fd count (Z.of_nat (List.length got)))
       (events_of_call m (snd r)) /\
    (forall k, Z.of_nat (List.length got) <= k -> buf (snd r) k = buf m k) /\
    List.length (filter is_tile_store (events_of_call m (snd r))) =
    (Z.to_nat (CInt.add dx x_offset) * Z.to_nat (CInt.add dy y_offset))%nat /\
    tile_1d (snd r) =
    decode_mem word_size (Z.to_nat (narray dx dy x_offset y_offset)) 0
      (buf (snd r)) (tile_1d m) /\
    filter is_tile_store (events_of_call m (snd r)) =
    remap_rows dx x_offset (tile_1d (snd r))
      (Z.to_nat (CInt.add dy y_offset)) (Z.to_nat (CInt.add dx x_offset)) 0 /\
    (word_size = 2 ->
     2 * narray dx dy x_offset y_offset <= CInt.max_int ->
     forall k, 0 <= k < narray dx dy x_offset y_offset ->
       (2 * k + 1 < Z.of_nat (List.length got) ->
        tile_1d (snd r) k
        = F32.of_int (sample_value 2 (nth (Z.to_nat (2 * k)) got Byte.x00)
                        (nth (Z.to_nat (2 * k + 1)) got Byte.x00))) /\
       (2 * k < Z.of_nat (List.length got) <= 2 * k + 1 ->
        tile_1d (snd r) k
        = F32.of_int (sample_value 2 (nth (Z.to_nat (2 * k)) got Byte.x00)
                        (buf m (2 * k + 1)))) /\
       (Z.of_nat (List.length got) <= 2 * k ->
        tile_1d (snd r) k
        = F32.of_int (sample_value 2 (buf m (2 * k)) (buf m (2 * k + 1))))).
Proof.
  intros env file dx dy x_offset y_offset word_size m data fd count got r
         Hfd Hread Hshort Hrc.
  subst fd count got r.
  on_path (success_path _ _ _ _ _ _ _ _ data).
  erewrite events_of_call_app by reflexivity.
  set (n := narray dx dy x_offset y_offset) in *.
  set (got := transfer (read_count word_size n) data) in *.
  assert (Hstores :
            filter is_tile_store
              ([EvMalloc (buf_size word_size n) (next_block m);
                EvOpen file (os_open env file)] ++
               [EvRead (os_open env file) (read_count word_size n)
                  (Z.of_nat (List.length got));
                EvClose (os_open env file) (os_close env (os_open env file))]
               ++ remap_rows dx x_offset
                    (decode_mem word_size (Z.to_nat n) 0
                       (mem_write_bytes (buf m) 0 got) (tile_1d m))
                    (Z.to_nat (CInt.add dy y_offset))
                    (Z.to_nat (CInt.add dx x_offset)) 0
               ++ [EvFree (next_block m)])
            = remap_rows dx x_offset
                (decode_mem word_size (Z.to_nat n) 0
                   (mem_write_bytes (buf m) 0 got) (tile_1d m))
                (Z.to_nat (CInt.add dy y_offset))
                (Z.to_nat (CInt.add dx x_offset)) 0).
  { apply success_stores; try reflexivity. apply remap_rows_only_stores. }
  split; [reflexivity | ]. split.
  { apply in_or_app. right. apply in_or_app. left. left. reflexivity. }
  split.
  { intros k Hk. rewrite mem_write_bytes_spec.
    destruct (Z.leb_spec 0 k) as [H0 | H0]; cbn [andb]; [ | reflexivity].
    destruct (Z.ltb_spec k (0 + Z.of_nat (List.length got)));
      [lia | reflexivity]. }
  split.
  { rewrite Hstores, remap_rows_length. reflexivity. }
  split; [reflexivity | ].
  split; [exact Hstores | ].
  intros Hws Hfit k Hk. subst word_size.
  rewrite decode_mem_spec.
  destruct (Z.leb_spec 0 k); [ | lia].
  destruct (Z.ltb_spec k (0 + Z.of_nat (Z.to_nat n))); [ | lia].
  cbn [andb].
  destruct (decode_index_exact n k Hk Hfit) as [-> ->].
  rewrite !mem_write_bytes_spec.
  destruct (Z.leb_spec 0 (2 * k)); [ | lia].
  destruct (Z.leb_spec 0 (2 * k + 1)); [ | lia].
  cbn [andb]. rewrite !Z.sub_0_r.
  split; [ | split]; intros Hlen.
  - destruct (Z.ltb_spec (2 * k) (0 + Z.of_nat (List.length got)));
      [ | lia].
    destruct (Z.ltb_spec (2 * k + 1) (0 + Z.of_nat (List.length got)));
      [reflexivity | lia].
  - destruct (Z.ltb_spec (2 * k) (0 + Z.of_nat (List.length got)));
      [ | lia].
    destruct (Z.ltb_spec (2 * k + 1) (0 + Z.of_nat (List.length got)));
      [lia | reflexivity].
  - destruct (Z.ltb_spec (2 * k) (0 + Z.of_nat (List.length got)));
      [lia | ].
    destruct (Z.ltb_spec (2 * k + 1) (0 + Z.of_nat (List.length got)));
      [lia | reflexivity].
Qed.

Lemma short_read_is_success_witness :
  Z.of_nat (List.length (transfer (read_count 2 (narray 2 2 0 0))
                           [Byte.x00; Byte.x01]))
    < read_count 2 (narray 2 2 0 0) /\
  fst (c_get_tile (regular_file "tile.bin" [Byte.x00; Byte.x01]) "tile.bin"
         2 2 0 0 2 zeroed) = 1 /\
  tile_1d (snd (c_get_tile (regular_file "tile.bin" [Byte.x00; Byte.x01])
                  "tile.bin" 2 2 0 0 2 zeroed)) 0
  = F32.of_int
      (sample_value 2
         (nth (Z.to_nat (2 * 0))
            (transfer (read_count 2 (narray 2 2 0 0)) [Byte.x00; Byte.x01])
            Byte.x00)
         (nth (Z.to_nat (2 * 0 + 1))
            (transfer (read_count 2 (narray 2 2 0 0)) [Byte.x00; Byte.x01])
            Byte.x00)).
Proof.
  assert (Hfd : os_open (regular_file "tile.bin" [Byte.x00; Byte.x01])
                  "tile.bin" <> -1) by (vm_compute; discriminate).
  assert (Hread :
            os_read (regular_file "tile.bin" [Byte.x00; Byte.x01])
              (os_open (regular_file "tile.bin" [Byte.x00; Byte.x01])
                 "tile.bin")
              (read_count 2 (narray 2 2 0 0))
            = ReadBytes [Byte.x00; Byte.x01]) by reflexivity.
  assert (Hshort :
            Z.of_nat (List.length (transfer (read_count 2 (narray 2 2 0 0))
                                     [Byte.x00; Byte.x01]))
            < read_count 2 (narray 2 2 0 0)) by (vm_compute; reflexivity).
  assert (Hrc : os_close (regular_file "tile.bin" [Byte.x00; Byte.x01])
                  (os_open (regular_file "tile.bin" [Byte.x00; Byte.x01])
                     "tile.bin") <> -1) by (vm_compute; discriminate).
  assert (Hfit : 2 * narray 2 2 0 0 <= CInt.max_int)
    by (vm_compute; discriminate).
  assert (Hk : 0 <= 0 < narray 2 2 0 0) by (vm_compute; split; congruence).
  assert (Hlen : 2 * 0 + 1
                 < Z.of_nat (List.length
                               (transfer (read_count 2 (narray 2 2 0 0))
                                  [Byte.x00; Byte.x01])))
    by (vm_compute; reflexivity).
  pose proof (short_read_is_success
                (regular_file "tile.bin" [Byte.x00; Byte.x01]) "tile.bin"
                2 2 0 0 2 zeroed [Byte.x00; Byte.x01]
                Hfd Hread Hshort Hrc) as H.
  split; [exact Hshort | ]. split; [exact (proj1 H) | ].
  exact (proj1 (proj2 (proj2 (proj2 (proj2 (proj2 (proj2 H)))))
                  eq_refl Hfit 0 Hk) Hlen).
Defined.

(** ** Repeated calls *)

(** A position that is stored to ends up the same whatever it held. *)
Lemma replay_written_indep (evs : list event) (t1 t2 : mem F32.float)
    (p : Z) :
  (exists v, In (EvTileStore p v) evs) ->
  replay evs t1 p = replay evs t2 p.
Proof.
  revert t1 t2. induction evs as [ | e evs IH]; intros t1 t2 [v Hv].
  - destruct Hv.
  - destruct (in_dec Z.eq_dec p
                (map (fun e => match e with EvTileStore q _ => q | _ => p - 1 end)
                     evs)) as [Hlater | Hnone].
    + apply in_map_iff in Hlater. destruct Hlater as [e' [Hq He']].
      destruct e'; try lia. subst pos.
      destruct e; cbn [replay]; apply IH; exists v0; exact He'.
    + assert (Hrest : forall w, ~ In (EvTileStore p w) evs).
      { intros w Hw. apply Hnone. apply in_map_iff.
        exists (EvTileStore p w). split; [reflexivity | exact Hw]. }
      destruct Hv as [-> | Hv]; [ | destruct (Hrest v Hv)].
      cbn [replay]. rewrite !replay_untouched by exact Hrest.
      unfold mem_store. rewrite Z.eqb_refl. reflexivity.
Qed.

(** When the whole extent was decoded from the file, the stores of a
    successful call are a function of the arguments and the file. *)
Lemma decoded_call_tile env file dx dy x_offset y_offset m data :
  os_open env file <> -1 ->
  os_read env (os_open env file)
    (read_count 2 (narray dx dy x_offset y_offset)) = ReadBytes data ->
  os_close env (os_open env file) <> -1 ->
  0 < dx -> 0 < dy -> 0 <= x_offset -> 0 <= y_offset ->
  dx + x_offset <= dy + y_offset ->
  2 * ((dx + x_offset) * (dy + y_offset)) <= CInt.max_int ->
  read_count 2 (narray dx dy x_offset y_offset)
    <= Z.of_nat (List.length data) ->
  tile (snd (c_get_tile env file dx dy x_offset y_offset 2 m))
  = replay
      (remap_rows dx x_offset (file_sample data)
         (Z.to_nat (dy + y_offset)) (Z.to_nat (dx + x_offset)) 0)
      (tile m).
Proof.
  intros Hfd Hread Hrc Hdx Hdy Hxo Hyo Htall Hsize Hfull.
  pose proof (tall_request_fits dx dy x_offset y_offset
                Hdx Hdy Hxo Hyo Htall Hsize) as Hfit.
  destruct (extent_exact _ _ _ _ Hfit) as [Hx Hy].
  destruct (success_tile env file dx dy x_offset y_offset 2 m data
              Hfd Hread Hrc) as [_ [Htile _]].
  destruct (success_samples env file dx dy x_offset y_offset 2 m data
              Hfd Hread Hrc) as [_ Hsamples].
  rewrite Htile, Hsamples, Hx, Hy. f_equal.
  apply remap_rows_ext. intros j i Hj Hi.
  assert (Hi' : 0 <= i < dy + y_offset) by lia.
  assert (Hj' : 0 <= j < dx + x_offset) by lia.
  rewrite (decoded_sample_from_file dx dy x_offset y_offset
             Hdx Hdy Hxo Hyo Htall Hsize data) by assumption.
  destruct (remap_index_exact _ _ _ _ i j Hfit Hi' Hj') as [_ ->].
  reflexivity.
Qed.

(** C8, amended.  The status depends only on the arguments and on what the
    system calls answer.  When every sample the remapping reads was
    decoded from the file (16-bit words, the whole extent delivered by the
    read, an extent no wider than it is tall, sizes within [int]), two
    successful calls with the same arguments and file leave the same
    value at every position of the window
    [0, (dy+y_offset)*dx + x_offset), which contains the [dx*dy] array,
    whatever the caller's array, the heap block and the stack array held
    before each call; outside the window each call leaves what was
    there. *)
Theorem c_get_tile_deterministic_when_decoded :
  forall env file dx dy x_offset y_offset word_size m1 m2,
    let r1 := c_get_tile env file dx dy x_offset y_offset word_size m1 in
    let r2 := c_get_tile env file dx dy x_offset y_offset word_size m2 in
    fst r1 = fst r2 /\
    (decoded_in_full env file dx dy x_offset y_offset word_size ->
     dx * dy <= (dy + y_offset) * dx + x_offset /\
     (fst r1 = 1 ->
      forall p, 0 <= p < (dy + y_offset) * dx + x_offset ->
        tile (snd r1) p = tile (snd r2) p) /\
     ((forall p, tile m1 p = tile m2 p) ->
      forall p, tile (snd r1) p = tile (snd r2) p)).
Proof.
  intros env file dx dy x_offset y_offset word_size m1 m2 r1 r2.
  subst r1 r2. split; [rewrite !status_of_path; reflexivity | ].
  intros [Hws [Hdx [Hdy [Hxo [Hyo [Htall [Hsize Hfull]]]]]]].
  subst word_size.
  pose proof (tall_request_fits dx dy x_offset y_offset
                Hdx Hdy Hxo Hyo Htall Hsize) as Hfit.
  split.
  { assert (0 <= y_offset * dx) by (apply Z.mul_nonneg_nonneg; lia).
    replace ((dy + y_offset) * dx) with (dx * dy + y_offset * dx) by ring.
    lia. }
  destruct (path_of env file dx dy x_offset y_offset 2) eqn:Hpath.
  1-3: split;
    [ rewrite status_of_path, Hpath; simpl; discriminate
    | intros Hout p;
      destruct (failure_state env file dx dy x_offset y_offset 2 m1)
        as [-> _]; [congruence | ];
      destruct (failure_state env file dx dy x_offset y_offset 2 m2)
        as [-> _]; [congruence | ];
      apply Hout ].
  apply path_completed_iff in Hpath. destruct Hpath as [Hfd [Hread Hrc]].
  destruct (os_read env (os_open env file)
              (read_count 2 (narray dx dy x_offset y_offset)))
    as [ | data] eqn:Hdata; [congruence | ].
  specialize (Hfull data eq_refl).
  rewrite (decoded_call_tile env file dx dy x_offset y_offset m1 data)
    by assumption.
  rewrite (decoded_call_tile env file dx dy x_offset y_offset m2 data)
    by assumption.
  split.
  - intros _ p Hp. apply replay_written_indep.
    destruct (window_covered dx dy x_offset y_offset Hfit p Hp)
      as [i [j [Hi [Hj Hpos]]]].
    eexists.
    apply (in_remap_rows_plain dx dy x_offset y_offset Hfit); [lia | lia | ].
    exists i, j. split; [exact Hi | ]. split; [lia | ].
    split; [exact Hpos | reflexivity].
  - intros Hout p. apply replay_ext. exact Hout.
Qed.

Lemma c_get_tile_deterministic_when_decoded_witness :
  decoded_in_full (regular_file "tile.bin" four_samples) "tile.bin"
    2 2 0 0 2 /\
  fst (c_get_tile (regular_file "tile.bin" four_samples) "tile.bin"
         2 2 0 0 2 zeroed) = 1 /\
  forall p, 0 <= p < (2 + 0) * 2 + 0 ->
    tile (snd (c_get_tile (regular_file "tile.bin" four_samples) "tile.bin"
                 2 2 0 0 2 zeroed)) p
    = tile (snd (c_get_tile (regular_file "tile.bin" four_samples) "tile.bin"
                   2 2 0 0 2
                   (snd (c_get_tile (regular_file "tile.bin" four_samples)
                           "tile.bin" 2 2 0 0 2 zeroed)))) p.
Proof.
  assert (Hdec : decoded_in_full (regular_file "tile.bin" four_samples)
                   "tile.bin" 2 2 0 0 2).
  { unfold decoded_in_full, CInt.max_int.
    repeat (split; [lia | ]).
    intros data Hdata. vm_compute in Hdata. injection Hdata as <-.
    vm_compute. discriminate. }
  assert (Hok : fst (c_get_tile (regular_file "tile.bin" four_samples)
                       "tile.bin" 2 2 0 0 2 zeroed) = 1)
    by (vm_compute; reflexivity).
  split; [exact Hdec | ]. split; [exact Hok | ].
  exact (proj1 (proj2
           (proj2 (c_get_tile_deterministic_when_decoded
                     (regular_file "tile.bin" four_samples) "tile.bin"
                     2 2 0 0 2 zeroed
                     (snd (c_get_tile (regular_file "tile.bin" four_samples)
                             "tile.bin" 2 2 0 0 2 zeroed)))
                  Hdec)) Hok).
Defined.
